(** * The availability-request validator and response builder

    A shallow embedding of [assignment.py] (class [ParseAvailRequest]) and the
    properties of its validate-then-transform pipeline.

    Layout:
    - [Py]: the Python values and exceptions the program manipulates
      (exceptions as a result type, [int()], truthiness);
    - [ET]: the fragment of [xml.etree.ElementTree] the program queries
      ([find], [findall], [.text], [.get]);
    - [DT]: naive [datetime] values, [timedelta] arithmetic and
      [strptime] for the one format the program uses;
    - [self]: the attributes set by [__init__];
    - the methods of the class, in source order;
    - the theorems. *)

From Stdlib Require Import ZArith String Ascii List Lia Bool DecimalString.
From Stdlib Require DecimalPos DecimalZ.
From Stdlib Require Import Floats.PrimFloat.
From stdpp Require Import base gmap strings list.

Set Warnings "-inexact-float,-register-all".
Local Open Scope string_scope.
Local Open Scope Z_scope.

(** ** Python values and exceptions *)

Module Py.

(** The exception classes that the program can raise.  [ValueError] carries
    [str(e)]; [NameError] the unbound global name; the other two carry the
    name of the attribute or argument at fault. *)
Inductive exn : Type :=
| ValueError (msg : string)
| NameError (name : string)
| AttributeError (attr : string)
| TypeError (what : string).

Inductive result (A : Type) : Type :=
| Ok (a : A)
| Raise (e : exn).
Arguments Ok {A} a.
Arguments Raise {A} e.

Definition bind {A B} (r : result A) (k : A -> result B) : result B :=
  match r with
  | Ok a => k a
  | Raise e => Raise e
  end.

Definition is_ok {A} (r : result A) : Prop :=
  match r with Ok _ => True | Raise _ => False end.

(** [len(l)] *)
Definition len {A} (l : list A) : Z := Z.of_nat (length l).

(** A value that is either a [str] or [None]. *)
Definition truthy (v : option string) : bool :=
  match v with
  | Some (String _ _) => true
  | _ => false
  end.

(** The texts of a document are taken to be ASCII: a [string] holds one
    character per byte.  Where a function below looks at the characters
    ([repr], [int], [strptime]) it follows CPython on such texts; bytes above
    127 are treated as characters that are neither digits nor white space.

    [repr] of a [str]: double quotes when the text has a single quote and no
    double quote, single quotes otherwise; the backslash and the chosen
    quote are escaped, tab, newline and carriage return are written as
    their escapes, the other control characters as [\xhh]. *)
Definition hex_digit (n : N) : ascii :=
  ascii_of_N (if (n <? 10)%N then 48 + n else 87 + n).

Definition repr_char (quote c : ascii) : string :=
  let n := N_of_ascii c in
  if Ascii.eqb c quote || Ascii.eqb c "\" then String "\" (String c "")
  else if (n =? 9)%N then "\t"
  else if (n =? 10)%N then "\n"
  else if (n =? 13)%N then "\r"
  else if (n <? 32)%N || (n =? 127)%N then
    String "\" (String "x" (String (hex_digit (n / 16))
                                (String (hex_digit (n mod 16)) "")))
  else String c "".

Fixpoint has_char (c : ascii) (s : string) : bool :=
  match s with
  | String c' r => Ascii.eqb c c' || has_char c r
  | EmptyString => false
  end.

Fixpoint repr_body (quote : ascii) (s : string) : string :=
  match s with
  | String c r => repr_char quote c ++ repr_body quote r
  | EmptyString => ""
  end.

Definition double_quote : ascii := ascii_of_nat 34.

Definition repr (s : string) : string :=
  let quote :=
    if has_char "'" s && negb (has_char double_quote s) then double_quote
    else "'"%char in
  String quote (repr_body quote s ++ String quote "").

(** A value that is a [str] or [None], formatted by an f-string. *)
Definition fmt (v : option string) : string :=
  match v with Some s => s | None => "None" end.

(** [str(n)] for an [int]. *)
Definition str_of_int (n : Z) : string := NilZero.string_of_int (Z.to_int n).

(** *** [int(s)] on a [str], base 10

    Surrounding white space is dropped, one sign is allowed, and the digits
    may be separated by single underscores.  A numeral that is well formed
    and has more than 4300 digits (leading zeros counted, underscores not)
    is refused: the default of [sys.set_int_max_str_digits]. *)
Definition is_space (c : ascii) : bool :=
  let n := N_of_ascii c in
  ((9 <=? n) && (n <=? 13) || (28 <=? n) && (n <=? 32))%N.

Definition digit (c : ascii) : option Z :=
  let n := N_of_ascii c in
  if ((48 <=? n) && (n <=? 57))%N then Some (Z.of_N n - 48) else None.

Definition is_digit (c : ascii) : bool :=
  match digit c with Some _ => true | None => false end.

Fixpoint skip_space (s : string) : string :=
  match s with
  | String c r => if is_space c then skip_space r else s
  | EmptyString => s
  end.

Definition max_str_digits : Z := 4300.

(** The value of the digits read so far, their number, and what follows
    them. *)
Fixpoint int_digits (acc n : Z) (s : string) : Z * Z * string :=
  match s with
  | String c r =>
      match digit c with
      | Some d => int_digits (10 * acc + d) (n + 1) r
      | None =>
          if Ascii.eqb c "_" then
            match r with
            | String c' _ =>
                if is_digit c' then int_digits acc n r else (acc, n, s)
            | EmptyString => (acc, n, s)
            end
          else (acc, n, s)
      end
  | EmptyString => (acc, n, s)
  end.

Definition invalid_literal (s : string) : exn :=
  ValueError ("invalid literal for int() with base 10: " ++ repr s).

Definition digit_limit (n : Z) : exn :=
  ValueError ("Exceeds the limit (4300 digits) for integer string "
              ++ "conversion: value has " ++ str_of_int n
              ++ " digits; use sys.set_int_max_str_digits() "
              ++ "to increase the limit").

Definition int (s : string) : result Z :=
  let s1 := skip_space s in
  let '(neg, s2) :=
    match s1 with
    | String "+" r => (false, r)
    | String "-" r => (true, r)
    | _ => (false, s1)
    end in
  match s2 with
  | String c _ =>
      if is_digit c then
        let '(v, n, rest) := int_digits 0 0 s2 in
        match skip_space rest with
        | EmptyString =>
            if n >? max_str_digits then Raise (digit_limit n)
            else Ok (if neg then - v else v)
        | String _ _ => Raise (invalid_literal s)
        end
      else Raise (invalid_literal s)
  | EmptyString => Raise (invalid_literal s)
  end.

End Py.
Export Py.

Notation "'let*' x ':=' e 'in' k" := (Py.bind e (fun x => k))
  (at level 10, x pattern, e at level 100, k at level 200).

(** ** The element tree *)

Module ET.

(** An [Element]: tag, attribute dictionary, text content (absent for an
    empty element) and the child elements in document order. *)
Inductive Element : Type :=
| Elem (tag : string) (attrib : gmap string string)
       (text : option string) (children : list Element).

Definition tag (e : Element) : string :=
  match e with Elem t _ _ _ => t end.
Definition attrib (e : Element) : gmap string string :=
  match e with Elem _ a _ _ => a end.
Definition text (e : Element) : option string :=
  match e with Elem _ _ t _ => t end.
Definition children (e : Element) : list Element :=
  match e with Elem _ _ _ cs => cs end.

(** [e.iter()]: the element and all its descendants, in document order. *)
Fixpoint iter (e : Element) : list Element :=
  match e with
  | Elem _ _ _ cs => e :: flat_map iter cs
  end.

(** The [//] step of a path: every descendant, the element itself left
    out. *)
Definition descendants (e : Element) : list Element :=
  flat_map iter (children e).

Definition has_tag (t : string) (e : Element) : bool := String.eqb (tag e) t.

(** One [/t] step applied to each selected element in turn. *)
Definition child_step (t : string) (sel : list Element) : list Element :=
  flat_map (fun e => List.filter (has_tag t) (children e)) sel.

(** [e.findall(".//t0/t1/.../tn")], the path given as the tag [t0] and the
    list of child tags [t1 ... tn]. *)
Definition findall (t0 : string) (steps : list string) (e : Element)
  : list Element :=
  fold_left (fun sel t => child_step t sel) steps
            (List.filter (has_tag t0) (descendants e)).

(** [e.find(path)]: the first match, or [None]. *)
Definition find (t0 : string) (steps : list string) (e : Element)
  : option Element :=
  head (findall t0 steps e).

(** [node.text] where [node] is the result of a [find]. *)
Definition text_of (node : option Element) : result (option string) :=
  match node with
  | Some e => Ok (text e)
  | None => Raise (AttributeError "text")
  end.

(** [node.get(key)] where [node] is the result of a [find]. *)
Definition get (node : option Element) (key : string)
  : result (option string) :=
  match node with
  | Some e => Ok (attrib e !! key)
  | None => Raise (AttributeError "get")
  end.

End ET.
Import ET.

(** ** Dates *)

Module DT.

(** A naive [datetime], held as the proleptic Gregorian ordinal of its date
    ([toordinal()]) and the microseconds elapsed since midnight. *)
Record datetime : Type := mk_datetime { ordinal : Z; usec : Z }.

Definition us_per_day : Z := 86400000000.

Definition is_leap (y : Z) : bool :=
  (y mod 4 =? 0) && (negb (y mod 100 =? 0) || (y mod 400 =? 0)).

Definition days_in_month (y m : Z) : Z :=
  if m =? 2 then (if is_leap y then 29 else 28)
  else if (m =? 4) || (m =? 6) || (m =? 9) || (m =? 11) then 30
  else 31.

Definition days_before_year (y : Z) : Z :=
  let y1 := y - 1 in y1 * 365 + y1 / 4 - y1 / 100 + y1 / 400.

Definition days_before_month (y m : Z) : Z :=
  fold_right Z.add 0
    (map (days_in_month y) (seqZ 1 (m - 1))).

Definition ymd2ord (y m d : Z) : Z :=
  days_before_year y + days_before_month y m + d.

(** [datetime(y, m, d)] *)
Definition make (y m d : Z) : result datetime :=
  if negb ((1 <=? y) && (y <=? 9999)) then
    Raise (ValueError ("year " ++ str_of_int y ++ " is out of range"))
  else if negb ((1 <=? m) && (m <=? 12)) then
    Raise (ValueError "month must be in 1..12")
  else if negb ((1 <=? d) && (d <=? days_in_month y m)) then
    Raise (ValueError "day is out of range for month")
  else Ok (mk_datetime (ymd2ord y m d) 0).

(** [t + timedelta(days=n)] *)
Definition add_days (t : datetime) (n : Z) : datetime :=
  mk_datetime (ordinal t + n) (usec t).

Definition total_us (t : datetime) : Z := ordinal t * us_per_day + usec t.

(** [a <= b] *)
Definition leb (a b : datetime) : bool := total_us a <=? total_us b.

(** [(a - b).days]: a [timedelta] is normalised with its seconds and
    microseconds non-negative, so the days are the floor. *)
Definition sub_days (a b : datetime) : Z :=
  (total_us a - total_us b) / us_per_day.

(** *** [datetime.strptime(s, "%d/%m/%Y")]

    On ASCII text.  The three directives are matched as the alternations
    [3[0-1]|[1-2]\d|0[1-9]|[1-9]| [1-9]], [1[0-2]|0[1-9]|[1-9]] and
    [\d\d\d\d]; alternatives are tried in this order and the first
    complete match is taken; the whole string has to be consumed. *)
Definition dig (c : ascii) (lo hi : Z) : option Z :=
  match digit c with
  | Some d => if (lo <=? d) && (d <=? hi) then Some d else None
  | None => None
  end.

Definition alt2 (c1 c2 : ascii) (lo1 hi1 lo2 hi2 : Z) (rest : string)
  : list (Z * string) :=
  match dig c1 lo1 hi1, dig c2 lo2 hi2 with
  | Some a, Some b => [(10 * a + b, rest)]
  | _, _ => []
  end.

Definition alt1 (c1 : ascii) (rest : string) : list (Z * string) :=
  match dig c1 1 9 with
  | Some a => [(a, rest)]
  | None => []
  end.

Definition match_d (s : string) : list (Z * string) :=
  match s with
  | String c1 (String c2 r as r1) =>
      alt2 c1 c2 3 3 0 1 r ++ alt2 c1 c2 1 2 0 9 r ++ alt2 c1 c2 0 0 1 9 r
      ++ alt1 c1 r1
      ++ (if Ascii.eqb c1 " " then alt1 c2 r else [])
  | String c1 EmptyString => alt1 c1 EmptyString
  | EmptyString => []
  end.

Definition match_m (s : string) : list (Z * string) :=
  match s with
  | String c1 (String c2 r as r1) =>
      alt2 c1 c2 1 1 0 2 r ++ alt2 c1 c2 0 0 1 9 r ++ alt1 c1 r1
  | String c1 EmptyString => alt1 c1 EmptyString
  | EmptyString => []
  end.

Definition match_Y (s : string) : option (Z * string) :=
  match s with
  | String c1 (String c2 (String c3 (String c4 r))) =>
      match digit c1, digit c2, digit c3, digit c4 with
      | Some a, Some b, Some c, Some d =>
          Some (1000 * a + 100 * b + 10 * c + d, r)
      | _, _, _, _ => None
      end
  | _ => None
  end.

Definition slash (s : string) : option string :=
  match s with
  | String "/" r => Some r
  | _ => None
  end.

Fixpoint first_match {A B} (f : A -> option B) (l : list A) : option B :=
  match l with
  | [] => None
  | a :: l' => match f a with Some b => Some b | None => first_match f l' end
  end.

Definition match_dmY (s : string) : option (Z * Z * Z * string) :=
  first_match (fun '(d, s1) =>
    match slash s1 with
    | Some s2 =>
        first_match (fun '(m, s3) =>
          match slash s3 with
          | Some s4 =>
              match match_Y s4 with
              | Some (y, s5) => Some (d, m, y, s5)
              | None => None
              end
          | None => None
          end) (match_m s2)
    | None => None
    end) (match_d s).

Definition strptime (s : option string) : result datetime :=
  match s with
  | None => Raise (TypeError "strptime() argument 1 must be str, not None")
  | Some s =>
      match match_dmY s with
      | None =>
          Raise (ValueError ("time data " ++ repr s
                             ++ " does not match format '%d/%m/%Y'"))
      | Some (d, m, y, EmptyString) => make y m d
      | Some (_, _, _, String _ _ as rest) =>
          Raise (ValueError ("unconverted data remains: " ++ rest))
      end
  end.

End DT.
Import DT.

(** ** The class [ParseAvailRequest] *)

(** The attributes assigned by [__init__]. *)
Module self.
Definition allowed_currencies : gset string := {[ "EUR"; "USD"; "GBP" ]}.
Definition allowed_nationalities : gset string := {[ "US"; "GB"; "CA" ]}.
Definition allowed_market : gset string := {[ "US"; "GB"; "CA"; "ES" ]}.
Definition var_filters_cg : gset string := {[ "en"; "fr"; "de"; "es" ]}.
Definition allowed_room_count : Z := 5.
Definition default_language : string := "en".
Definition default_currency : string := "EUR".
Definition default_nationality : string := "US".
Definition default_market : string := "ES".
Definition allowed_hotel_count : Z := 10.
Definition options_quota : Z := 20.
Definition max_child_age : Z := 5.
Definition allowed_room_guest_count : Z := 5.
(** [self.price["net"]] and [self.price["currency"]] *)
Definition price_net : float := 132.42%float.
Definition price_currency : string := "USD".
End self.

(** [v in s] for a value that is a [str] or [None] and a set of [str]. *)
Definition in_set (v : option string) (s : gset string) : bool :=
  match v with
  | Some x => bool_decide (x ∈ s)
  | None => false
  end.

(** [validate_destination].  The message of the second [raise] is an
    f-string that reads the global [ALLOWED_HOTEL_COUNT]; the module binds no
    such name, so evaluating the message raises [NameError] before any
    [ValueError] is built. *)
Definition validate_destination (search_type : option string)
    (avail_destinations : list Element) : result unit :=
  if bool_decide (search_type = Some "Single")
     && negb (len avail_destinations =? 1) then
    Raise (ValueError
      "If SearchType is 'Single', there must be exactly one destination.")
  else if bool_decide (search_type = Some "Multiple")
          && (len avail_destinations >? self.allowed_hotel_count) then
    Raise (NameError "ALLOWED_HOTEL_COUNT")
  else Ok tt.

Definition validate_user (password username company_id : option string)
  : result unit :=
  if negb (truthy password && truthy username && truthy company_id) then
    Raise (ValueError
      "Missing required parameters: password, username, or CompanyID.")
  else Ok tt.

(** [validate_date]; [today] stands for the value of [datetime.today()]. *)
Definition validate_date (today : datetime) (start_date end_date : datetime)
  : result unit :=
  if DT.leb start_date (add_days today 2) then
    Raise (ValueError "Start date must be at least 2 days after today.")
  else if sub_days end_date start_date <? 3 then
    Raise (ValueError "Stay duration must be at least 3 nights.")
  else Ok tt.

(** The value of the parameter [options_quota] of [validate_options_quota]
    after its first statement: [not options_quota] holds for [None] and for
    [0]. *)
Definition resolved_options_quota (options_quota : option Z) : Z :=
  match options_quota with
  | Some q => if q =? 0 then self.options_quota else q
  | None => self.options_quota
  end.

Definition validate_options_quota (options_quota : option Z) : result unit :=
  let options_quota := resolved_options_quota options_quota in
  if options_quota >? 50 then
    Raise (ValueError "OptionsQuota must be no greater than 50.")
  else Ok tt.

Definition validate_language_code (language_code : option string)
  : result unit :=
  if negb (in_set language_code self.var_filters_cg) then
    Raise (ValueError ("Invalid language code: " ++ fmt language_code))
  else Ok tt.

Definition calculate_selling_price (net_price markup_percentage : float)
  : float :=
  (net_price * (1 + markup_percentage / 100))%float.

Definition validate_room_count (count : Z) : result unit :=
  if count >? self.allowed_room_count then
    Raise (ValueError ("Number of rooms cannot exceed "
                       ++ str_of_int self.allowed_room_count ++ "."))
  else Ok tt.

(** *** [parse]

    The body of [parse] is a sequence of blocks, each of which reads the
    document and the attributes of [self] only; each block is a definition
    here and [parse] runs them in the order of the source. *)

(** An entry of [pax_data]: the dictionary with keys ["age"] and ["type"]. *)
Record pax_dict : Type := mk_pax { age : Z; type : string }.

(** The dictionary returned by [parse]. *)
Record AvailData : Type := mk_data {
  language_code : option string;
  options_quota : option Z;
  password : option string;
  username : option string;
  company_id : option string;
  search_type : option string;
  start_date : datetime;
  end_date : datetime;
  currency : string;
  nationality : string;
  market : option string;
  avail_destinations : list Element;
  paxes : list Element
}.

(** Lines 82-90.  The [else] branch reads the global [DEFAULT_LANGUAGE],
    which the module does not bind. *)
Definition extract_language (root : Element) : result (option string) :=
  let language_code := find "source" ["languageCode"] root in
  let* language_code :=
    match language_code with
    | Some node => Ok (text node)
    | None => Raise (NameError "DEFAULT_LANGUAGE")
    end in
  let* _ := validate_language_code language_code in
  Ok language_code.

(** Lines 92-98. *)
Definition extract_parameters (root : Element)
  : result (option string * option string * option string) :=
  let parameters := find "Configuration" ["Parameters"; "Parameter"] root in
  let* password := get parameters "password" in
  let* username := get parameters "username" in
  let* company_id := get parameters "CompanyID" in
  let* _ := validate_user password username company_id in
  Ok (password, username, company_id).

(** Lines 100-103. *)
Definition extract_destinations (root : Element)
  : result (option string * list Element) :=
  let* search_type := text_of (find "SearchType" [] root) in
  let avail_destinations := findall "AvailDestinations" [] root in
  let* _ := validate_destination search_type avail_destinations in
  Ok (search_type, avail_destinations).

(** Lines 105-109: the two dates are read and converted; [validate_date] is
    not called. *)
Definition extract_dates (root : Element) : result (datetime * datetime) :=
  let* start_date := text_of (find "StartDate" [] root) in
  let* end_date := text_of (find "EndDate" [] root) in
  let* start_date := strptime start_date in
  let* end_date := strptime end_date in
  Ok (start_date, end_date).

(** Lines 111-114.  [validate_options_quota] returns nothing, so the value
    kept by [parse] is the one read from the document. *)
Definition extract_options_quota (root : Element) : result (option Z) :=
  let* options_quota := text_of (find "optionsQuota" [] root) in
  let* options_quota :=
    match options_quota with
    | Some (String _ _ as s) => let* n := Py.int s in Ok (Some n)
    | _ => Ok None
    end in
  let* _ := validate_options_quota options_quota in
  Ok options_quota.

(** Lines 117-122. *)
Definition extract_currency (root : Element) : result string :=
  let* currency := text_of (find "Currency" [] root) in
  Ok (match currency with
      | Some c =>
          if bool_decide (c ∈ self.allowed_currencies) then c
          else self.default_currency
      | None => self.default_currency
      end).

(** Lines 123-128. *)
Definition extract_nationality (root : Element) : result string :=
  let* nationality := text_of (find "Nationality" [] root) in
  Ok (match nationality with
      | Some n =>
          if bool_decide (n ∈ self.allowed_nationalities) then n
          else self.default_nationality
      | None => self.default_nationality
      end).

(** Lines 129-130. *)
Definition extract_market (root : Element) : option string :=
  let market := find "Market" [] root in
  match market with
  | Some market => text market
  | None => Some self.default_market
  end.

(** [int(pax.get("age", 0))] *)
Definition pax_age (pax : Element) : result Z :=
  match attrib pax !! "age" with
  | Some s => Py.int s
  | None => Ok 0
  end.

(** Lines 138-141: the inner loop, which appends to [pax_data]. *)
Fixpoint pax_loop (paxs : list Element) (pax_data : list pax_dict)
  : result (list pax_dict) :=
  match paxs with
  | [] => Ok pax_data
  | pax :: rest =>
      let* age := pax_age pax in
      let pax_type :=
        if age <=? self.max_child_age then "Child" else "Adult" in
      pax_loop rest (pax_data ++ [mk_pax age pax_type])
  end.

(** [sum(1 for pax in pax_data if pax["type"] == t)] *)
Definition count_type (t : string) (pax_data : list pax_dict) : Z :=
  len (List.filter (fun pax => String.eqb (type pax) t) pax_data).

(** Lines 136-151: the loop over the rooms.  [pax_data] is created once,
    before the loop, and every room appends to it; [pax_list] is created for
    each room and left empty; the two counts are computed and dropped. *)
Fixpoint paxes_loop (paxes : list Element) (pax_data : list pax_dict)
  : result (list pax_dict) :=
  match paxes with
  | [] => Ok pax_data
  | paxes_block :: rest =>
      let pax_list : list pax_dict := [] in
      let* pax_data := pax_loop (findall "Pax" [] paxes_block) pax_data in
      if len pax_data >? self.allowed_room_guest_count then
        Raise (ValueError
          ("Number of passengers in a room cannot exceed "
           ++ str_of_int self.allowed_room_guest_count ++ "."))
      else
        let child_count := count_type "Child" pax_data in
        let adult_count := count_type "Adult" pax_data in
        paxes_loop rest pax_data
  end.

(** Lines 132-151. *)
Definition extract_rooms (root : Element) : result (list Element) :=
  let paxes := findall "Paxes" [] root in
  let* _ := validate_room_count (len paxes) in
  let pax_data : list pax_dict := [] in
  let* _ := paxes_loop paxes pax_data in
  Ok paxes.

(** [parse], on the tree that [ET.fromstring] returns. *)
Definition parse (root : Element) : result AvailData :=
  let* language_code := extract_language root in
  let* (password, username, company_id) := extract_parameters root in
  let* (search_type, avail_destinations) := extract_destinations root in
  let* (start_date, end_date) := extract_dates root in
  let* options_quota := extract_options_quota root in
  let* currency := extract_currency root in
  let* nationality := extract_nationality root in
  let market := extract_market root in
  let* paxes := extract_rooms root in
  Ok {| language_code := language_code;
        options_quota := options_quota;
        password := password;
        username := username;
        company_id := company_id;
        search_type := search_type;
        start_date := start_date;
        end_date := end_date;
        currency := currency;
        nationality := nationality;
        market := market;
        avail_destinations := avail_destinations;
        paxes := paxes |}.

(** *** [generate_response] and [main] *)

(** An element of the [response] list and its ["price"] dictionary. *)
Module Response.
Record Price : Type := mk_price {
  minimumSellingPrice : option float;
  currency : string;
  net : float;
  selling_price : float;
  selling_currency : string;
  markup : float;
  exchange_rate : float
}.
Record Item : Type := mk_item {
  id : string;
  hotelCodeSupplier : string;
  market : option string;
  price : Price
}.
End Response.

(** The body of the loop of [generate_response] for the counter [id]. *)
Definition response_item (data : AvailData) (id : Z) : Response.Item :=
  let markup_percentage := 3.2%float in
  let selling_price :=
    calculate_selling_price self.price_net markup_percentage in
  {| Response.id := "A#" ++ str_of_int id;
     Response.hotelCodeSupplier := "39971881";
     Response.market := market data;
     Response.price :=
       {| Response.minimumSellingPrice := None;
          Response.currency := self.price_currency;
          Response.net := self.price_net;
          Response.selling_price := selling_price;
          Response.selling_currency := currency data;
          Response.markup := markup_percentage;
          Response.exchange_rate := 1.0%float |} |}.

(** The loop over [data["avail_destinations"]], threading [response] and
    [id]. *)
Fixpoint response_loop (data : AvailData) (destinations : list Element)
    (response : list Response.Item) (id : Z) : list Response.Item :=
  match destinations with
  | [] => response
  | destination :: rest =>
      response_loop data rest (response ++ [response_item data id]) (id + 1)
  end.

(** [generate_response] up to the final [json.dumps(response, indent=2)]:
    the list that is serialised. *)
Definition generate_response (data : AvailData) : list Response.Item :=
  response_loop data (avail_destinations data) [] 1.

(** What [main] returns: the serialised list, or the object
    [{"error": str(e)}]. *)
Inductive output : Type :=
| JsonResponse (response : list Response.Item)
| JsonError (error : string).

(** [main]: only [ValueError] is caught. *)
Definition main (xml_request : Element) : result output :=
  match parse xml_request with
  | Ok data => Ok (JsonResponse (generate_response data))
  | Raise (ValueError e) => Ok (JsonError e)
  | Raise e => Raise e
  end.

(** ** Documents *)

Definition nl : string := String (ascii_of_nat 10) "".

(** An element with text and no attribute or child. *)
Definition leaf (t : string) (txt : option string) : Element :=
  Elem t ∅ txt [].

Definition source (lang : string) : Element :=
  Elem "source" ∅ (Some nl) [ leaf "languageCode" (Some lang) ].

Definition configuration : Element :=
  Elem "Configuration" ∅ (Some nl)
    [ Elem "Parameters" ∅ (Some nl)
        [ Elem "Parameter"
            {[ "password" := "XXXXXXXXXX"; "username" := "YYYYYYYYY";
               "CompanyID" := "123456" ]} None [] ] ].

Definition destinations (n : nat) : list Element :=
  replicate n (leaf "AvailDestinations" None).

Definition Pax (a : string) : Element := Elem "Pax" {[ "age" := a ]} None [].

Definition Paxes (l : list Element) : Element :=
  Elem "Paxes" ∅ (Some (nl ++ "    ")) l.

(** The document [xml_request] at the end of the source file. *)
Definition xml_request : Element :=
  Elem "AvailRQ" ∅ (Some nl)
    ([ leaf "timeoutMilliseconds" (Some "25000");
       source "en";
       leaf "optionsQuota" (Some "20");
       configuration;
       leaf "SearchType" (Some "Multiple");
       leaf "StartDate" (Some "14/10/2024");
       leaf "EndDate" (Some "16/10/2024");
       leaf "Currency" (Some "USD");
       leaf "Nationality" (Some "US") ]
     ++ destinations 3
     ++ [ Paxes [ Pax "10"; Pax "3" ]; Paxes [ Pax "35"; Pax "2" ] ]).

(** Editing the children of the root: drop those with a tag, append some,
    replace those that share the tag of a new one. *)
Definition omit (t : string) (e : Element) : Element :=
  Elem (tag e) (attrib e) (text e)
       (List.filter (fun c => negb (has_tag t c)) (children e)).

Definition add (cs : list Element) (e : Element) : Element :=
  Elem (tag e) (attrib e) (text e) (children e ++ cs).

Definition put (c : Element) (e : Element) : Element :=
  add [c] (omit (tag c) e).

(** ** Predicates used in the statements *)

(** The blocks of [parse] that precede the rooms all complete. *)
Definition passes_field_rules (root : Element) : Prop :=
  is_ok (extract_language root) ∧ is_ok (extract_parameters root)
  ∧ is_ok (extract_destinations root) ∧ is_ok (extract_dates root)
  ∧ is_ok (extract_options_quota root) ∧ is_ok (extract_currency root)
  ∧ is_ok (extract_nationality root).

(** Every occupant of every room has an [age] that [int()] accepts. *)
Definition ages_are_integers (rooms : list Element) : Prop :=
  Forall (fun room => Forall (fun pax => is_ok (pax_age pax))
                             (findall "Pax" [] room)) rooms.

(** The same as a test. *)
Definition ages_are_integersb (rooms : list Element) : bool :=
  forallb (fun room =>
             forallb (fun pax => match pax_age pax with
                                 | Ok _ => true
                                 | Raise _ => false
                                 end) (findall "Pax" [] room)) rooms.

(** The number of occupants of one room, and of a list of rooms. *)
Definition occupants (room : Element) : Z := len (findall "Pax" [] room).

Definition guests (rooms : list Element) : Z :=
  fold_right Z.add 0 (map occupants rooms).

(** The category that the age threshold gives an occupant. *)
Definition categorised (p : pax_dict) : Prop :=
  (age p <= 5 → type p = "Child") ∧ (6 <= age p → type p = "Adult").

(** The nodes that [parse] dereferences without a test for [None], in the
    order of the source, with the path of each and the attribute read. *)
Inductive required_node : Type :=
| NParameter | NSearchType | NStartDate | NEndDate
| NOptionsQuota | NCurrency | NNationality.

Definition lookup_node (n : required_node) (root : Element)
  : option Element :=
  match n with
  | NParameter => find "Configuration" ["Parameters"; "Parameter"] root
  | NSearchType => find "SearchType" [] root
  | NStartDate => find "StartDate" [] root
  | NEndDate => find "EndDate" [] root
  | NOptionsQuota => find "optionsQuota" [] root
  | NCurrency => find "Currency" [] root
  | NNationality => find "Nationality" [] root
  end.

Definition attribute_read (n : required_node) : string :=
  match n with
  | NParameter => "get"
  | _ => "text"
  end.

(** Every statement of [parse] that precedes the access to the node
    completes. *)
Definition reaches (n : required_node) (root : Element) : Prop :=
  match n with
  | NParameter => is_ok (extract_language root)
  | NSearchType =>
      is_ok (extract_language root) ∧ is_ok (extract_parameters root)
  | NStartDate =>
      is_ok (extract_language root) ∧ is_ok (extract_parameters root)
      ∧ is_ok (extract_destinations root)
  | NEndDate =>
      is_ok (extract_language root) ∧ is_ok (extract_parameters root)
      ∧ is_ok (extract_destinations root)
      ∧ is_Some (find "StartDate" [] root)
  | NOptionsQuota =>
      is_ok (extract_language root) ∧ is_ok (extract_parameters root)
      ∧ is_ok (extract_destinations root) ∧ is_ok (extract_dates root)
  | NCurrency =>
      is_ok (extract_language root) ∧ is_ok (extract_parameters root)
      ∧ is_ok (extract_destinations root) ∧ is_ok (extract_dates root)
      ∧ is_ok (extract_options_quota root)
  | NNationality =>
      is_ok (extract_language root) ∧ is_ok (extract_parameters root)
      ∧ is_ok (extract_destinations root) ∧ is_ok (extract_dates root)
      ∧ is_ok (extract_options_quota root) ∧ is_ok (extract_currency root)
  end.

(** The outcomes of [parse] that [main] turns into JSON text: a dictionary
    or a [ValueError]. *)
Definition answers {A} (r : result A) : Prop :=
  match r with
  | Ok _ => True
  | Raise (ValueError _) => True
  | Raise _ => False
  end.

(** Every node that [parse] dereferences is there, the two dates have text,
    and a Multiple search has at most ten destinations. *)
Definition complete (root : Element) : Prop :=
  is_Some (find "source" ["languageCode"] root)
  ∧ (∀ n, is_Some (lookup_node n root))
  ∧ (∃ s, text_of (find "StartDate" [] root) = Ok (Some s))
  ∧ (∃ e, text_of (find "EndDate" [] root) = Ok (Some e))
  ∧ (text_of (find "SearchType" [] root) = Ok (Some "Multiple") →
     len (findall "AvailDestinations" [] root) <= 10).

(** A text of ASCII characters only. *)
Fixpoint ascii_text (s : string) : bool :=
  match s with
  | String c r => (N_of_ascii c <? 128)%N && ascii_text r
  | EmptyString => true
  end.

(** A credential that is present and not empty. *)
Definition supplied (v : option string) : Prop :=
  ∃ s, v = Some s ∧ s ≠ "".

(** The fixed part of an offer. *)
Definition fixed_offer (item : Response.Item) : Prop :=
  Response.hotelCodeSupplier item = "39971881"
  ∧ Response.minimumSellingPrice (Response.price item) = None
  ∧ Response.currency (Response.price item) = "USD"
  ∧ Response.net (Response.price item) = 132.42%float
  ∧ Response.markup (Response.price item) = 3.2%float.

(** [validate_date] in calendar days, for dates at midnight. *)
Definition validate_date_days (today start_date end_date : Z) : result unit :=
  if start_date <=? today + 2 then
    Raise (ValueError "Start date must be at least 2 days after today.")
  else if end_date - start_date <? 3 then
    Raise (ValueError "Stay duration must be at least 3 nights.")
  else Ok tt.

(** * Properties *)

(** ** The result type *)

Lemma bind_Ok {A B} (r : result A) (k : A → result B) (b : B) :
  Py.bind r k = Ok b ↔ ∃ a, r = Ok a ∧ k a = Ok b.
Proof.
  destruct r as [a|e]; simpl; split.
  - intros H. exists a. auto.
  - intros (a' & Ha & Hk). congruence.
  - discriminate.
  - intros (a' & Ha & _). discriminate.
Qed.

Lemma is_ok_Ok {A} (r : result A) : is_ok r ↔ ∃ a, r = Ok a.
Proof.
  destruct r as [a|e]; simpl; split; eauto.
  - intros [].
  - intros [a H]. discriminate.
Qed.

Lemma len_app {A} (l k : list A) : len (l ++ k) = len l + len k.
Proof. unfold len. rewrite length_app. lia. Qed.

Lemma len_nonneg {A} (l : list A) : 0 <= len l.
Proof. unfold len. lia. Qed.

(** Destructs the [is_ok] hypotheses into equations. *)
Ltac ok_hyps :=
  repeat match goal with
         | H : is_ok _ |- _ => apply is_ok_Ok in H; destruct H as [? H]
         | H : is_Some _ |- _ => destruct H as [? H]
         | H : _ ∧ _ |- _ => destruct H
         end.

(** ** Inversion of [parse] *)

(** [parse] succeeds exactly when each of its blocks does, and the
    dictionary it returns holds the values the blocks produced. *)
Lemma parse_Ok (root : Element) (data : AvailData) :
  parse root = Ok data ↔
  ∃ lc pw us ci st ds sd ed q cu na rooms,
    extract_language root = Ok lc
    ∧ extract_parameters root = Ok (pw, us, ci)
    ∧ extract_destinations root = Ok (st, ds)
    ∧ extract_dates root = Ok (sd, ed)
    ∧ extract_options_quota root = Ok q
    ∧ extract_currency root = Ok cu
    ∧ extract_nationality root = Ok na
    ∧ extract_rooms root = Ok rooms
    ∧ data = mk_data lc q pw us ci st sd ed cu na (extract_market root)
                     ds rooms.
Proof.
  unfold parse. split.
  - intros H.
    apply bind_Ok in H as (lc & Hlc & H).
    apply bind_Ok in H as ([[pw us] ci] & Hp & H).
    apply bind_Ok in H as ([st ds] & Hd & H).
    apply bind_Ok in H as ([sd ed] & Hdt & H).
    apply bind_Ok in H as (q & Hq & H).
    apply bind_Ok in H as (cu & Hcu & H).
    apply bind_Ok in H as (na & Hna & H).
    apply bind_Ok in H as (rooms & Hr & H).
    exists lc, pw, us, ci, st, ds, sd, ed, q, cu, na, rooms.
    repeat split; try assumption. congruence.
  - intros (lc & pw & us & ci & st & ds & sd & ed & q & cu & na & rooms
            & -> & -> & -> & -> & -> & -> & -> & -> & ->).
    reflexivity.
Qed.

(** [main] turns a successful [parse] into the response. *)
Lemma main_Ok (root : Element) (data : AvailData) :
  parse root = Ok data →
  main root = Ok (JsonResponse (generate_response data)).
Proof. unfold main. intros ->. reflexivity. Qed.

(** [main] reports a [ValueError] of [parse] as the error object. *)
Lemma main_ValueError (root : Element) (msg : string) :
  parse root = Raise (ValueError msg) → main root = Ok (JsonError msg).
Proof. unfold main. intros ->. reflexivity. Qed.

(** ** Occupant categories *)

Lemma pax_loop_categorised (paxs : list Element) :
  ∀ pax_data out,
    Forall categorised pax_data →
    pax_loop paxs pax_data = Ok out → Forall categorised out.
Proof.
  induction paxs as [|pax rest IH]; intros pax_data out Hacc H; simpl in H.
  - congruence.
  - apply bind_Ok in H as (a & _ & H).
    apply (IH _ _) in H; [assumption|].
    apply Forall_app. split; [assumption|].
    constructor; [|constructor].
    unfold categorised, self.max_child_age. simpl.
    destruct (Z.leb_spec a 5); split; intros; try reflexivity; lia.
Qed.

Lemma paxes_loop_categorised (rooms : list Element) :
  ∀ pax_data out,
    Forall categorised pax_data →
    paxes_loop rooms pax_data = Ok out → Forall categorised out.
Proof.
  induction rooms as [|room rest IH]; intros pax_data out Hacc H; simpl in H.
  - congruence.
  - apply bind_Ok in H as (pd & Hpd & H).
    destruct (len pd >? self.allowed_room_guest_count); [discriminate|].
    apply (IH pd); [|assumption].
    eapply pax_loop_categorised; eassumption.
Qed.

(** One occupant adds one entry, with its age and the category of that
    age. *)
Lemma pax_loop_one (pax : Element) (a : Z) (pax_data : list pax_dict) :
  pax_age pax = Ok a →
  pax_loop [pax] pax_data
  = Ok (pax_data ++ [mk_pax a (if a <=? 5 then "Child" else "Adult")])%list.
Proof. intros H. simpl. rewrite H. reflexivity. Qed.

(** C9: every entry that the room loop of [parse] records carries the
    category of its age: Child when the age is at most 5, Adult when it is
    at least 6. *)
Theorem occupant_category (rooms : list Element) (pax_data : list pax_dict) :
  paxes_loop rooms [] = Ok pax_data → Forall categorised pax_data.
Proof. apply paxes_loop_categorised. constructor. Qed.

(** C9 at the boundary: ages 5 and 6 in one room. *)
Lemma occupant_category_boundary :
  paxes_loop [Paxes [Pax "5"; Pax "6"]] []
  = Ok [mk_pax 5 "Child"; mk_pax 6 "Adult"]
  ∧ Forall categorised [mk_pax 5 "Child"; mk_pax 6 "Adult"].
Proof.
  split; [vm_compute; reflexivity|].
  apply (occupant_category [Paxes [Pax "5"; Pax "6"]]).
  vm_compute; reflexivity.
Defined.

(** ** The response builder *)

Lemma len_cons {A} (x : A) (l : list A) : len (x :: l) = 1 + len l.
Proof. unfold len. simpl length. lia. Qed.

(** The loop appends one item per destination, numbered from [id] on. *)
Lemma response_loop_spec (data : AvailData) (dests : list Element) :
  ∀ response id,
    response_loop data dests response id
    = (response ++ (response_item data <$> seqZ id (len dests)))%list.
Proof.
  induction dests as [|d rest IH]; intros response id; simpl.
  - rewrite app_nil_r. reflexivity.
  - rewrite IH, len_cons, <- app_assoc. f_equal.
    rewrite (seqZ_cons id) by (pose proof (len_nonneg rest); lia).
    simpl. do 3 f_equal; lia.
Qed.

Lemma generate_response_spec (data : AvailData) :
  generate_response data
  = response_item data <$> seqZ 1 (len (avail_destinations data)).
Proof. unfold generate_response. apply response_loop_spec. Qed.

(** The price block of every item is the same fixed computation. *)
Lemma response_item_price (data : AvailData) (n : Z) :
  let p := Response.price (response_item data n) in
  Response.selling_price p
  = calculate_selling_price self.price_net 3.2%float
  ∧ Response.selling_price p = (132.42 * 1.032)%float
  ∧ (136.65 <=? Response.selling_price p)%float = true
  ∧ (Response.selling_price p <? 136.66)%float = true
  ∧ Response.exchange_rate p = 1.0%float.
Proof. repeat split; vm_compute; reflexivity. Qed.

(** C7: [generate_response] emits one item per destination entry, in order,
    with the identifiers A#1, A#2, ... counted from 1; every item has the
    selling price [net * (1 + markup / 100)] for net 132.42 and markup 3.2,
    which is the double [132.42 * 1.032], between 136.65 and 136.66, and the
    exchange rate 1.0; with no destination the list is empty.  The function
    has no failing path, and [main] returns its list for every request that
    [parse] accepts. *)
Theorem generate_response_offers (data : AvailData) :
  let response := generate_response data in
  length response = length (avail_destinations data)
  ∧ (Response.id <$> response)
    = ((fun n => "A#" ++ str_of_int n)
         <$> seqZ 1 (len (avail_destinations data)))
  ∧ Forall (fun item =>
              let p := Response.price item in
              Response.selling_price p
              = calculate_selling_price self.price_net 3.2%float
              ∧ Response.selling_price p = (132.42 * 1.032)%float
              ∧ (136.65 <=? Response.selling_price p)%float = true
              ∧ (Response.selling_price p <? 136.66)%float = true
              ∧ Response.exchange_rate p = 1.0%float) response
  ∧ (avail_destinations data = [] → response = [])
  ∧ (∀ root, parse root = Ok data → main root = Ok (JsonResponse response)).
Proof.
  cbv zeta. split; [|split; [|split; [|split]]].
  - rewrite generate_response_spec, length_fmap, length_seqZ. unfold len. lia.
  - rewrite generate_response_spec, <- list_fmap_compose. reflexivity.
  - rewrite generate_response_spec. apply Forall_fmap, Forall_true. intros n.
    apply (response_item_price data n).
  - rewrite generate_response_spec. intros ->. reflexivity.
  - intros root. apply main_Ok.
Qed.

(** C7 on the three destinations of [xml_request], and on the same request
    without any destination. *)
Lemma generate_response_offers_sample :
  (∃ data, parse xml_request = Ok data
     ∧ (Response.id <$> generate_response data) = ["A#1"; "A#2"; "A#3"])
  ∧ main (omit "AvailDestinations" xml_request) = Ok (JsonResponse []).
Proof.
  split.
  - destruct (parse xml_request) as [data|e] eqn:Hp;
      [|vm_compute in Hp; discriminate].
    exists data. split; [reflexivity|].
    destruct (generate_response_offers data) as (_ & Hid & _).
    cbv zeta in Hid. rewrite Hid.
    vm_compute in Hp. injection Hp as <-. vm_compute. reflexivity.
  - destruct (parse (omit "AvailDestinations" xml_request))
      as [data|e] eqn:Hp; [|vm_compute in Hp; discriminate].
    destruct (generate_response_offers data) as (_ & _ & _ & Hnil & Hmain).
    cbv zeta in Hnil, Hmain. rewrite (Hmain _ Hp), Hnil; [reflexivity|].
    vm_compute in Hp. injection Hp as <-. reflexivity.
Defined.

(** ** The options quota *)

Lemma validate_options_quota_Ok (q : option Z) :
  validate_options_quota q = Ok tt ↔ resolved_options_quota q <= 50.
Proof.
  unfold validate_options_quota.
  destruct (Z.gtb_spec (resolved_options_quota q) 50); split;
    intros; try reflexivity; try discriminate; lia.
Qed.

Lemma extract_options_quota_bound (root : Element) (q : option Z) :
  extract_options_quota root = Ok q → resolved_options_quota q <= 50.
Proof.
  unfold extract_options_quota. intros H.
  apply bind_Ok in H as (t & _ & H).
  apply bind_Ok in H as (q' & _ & H).
  apply bind_Ok in H as ([] & Hv & H).
  injection H as <-. apply validate_options_quota_Ok. assumption.
Qed.

(** The dictionary keeps the value read from the document: the default is
    applied inside [validate_options_quota] only. *)
Lemma extract_options_quota_value (root : Element) (q : option Z) :
  extract_options_quota root = Ok q →
  ∃ node, find "optionsQuota" [] root = Some node
    ∧ match text node with
      | Some (String _ _ as s) => Py.int s = Ok (default 0 q) ∧ is_Some q
      | _ => q = None
      end.
Proof.
  unfold extract_options_quota. intros H.
  apply bind_Ok in H as (t & Ht & H).
  apply bind_Ok in H as (q' & Hq & H).
  apply bind_Ok in H as ([] & Hv & H).
  injection H as <-.
  destruct (find "optionsQuota" [] root) as [node|]; [|discriminate].
  exists node. split; [reflexivity|].
  simpl in Ht. injection Ht as ->.
  destruct t as [[|c s]|]; try (injection Hq as <-; reflexivity).
  apply bind_Ok in Hq as (n & Hn & Hq). injection Hq as <-.
  split; [assumption|eauto].
Qed.

(** C4: the default quota is not stored.  A request that supplies the
    quota 0, or an optionsQuota node without text, is accepted, and the
    dictionary that [parse] returns holds 0 or nothing, not the default 20:
    [validate_options_quota] replaces the value in its own parameter only.
    A dictionary holds the quota 20 only when the document supplies the
    integer 20. *)
Theorem options_quota_default_not_stored :
  let zero := put (leaf "optionsQuota" (Some "0")) xml_request in
  let empty := put (leaf "optionsQuota" None) xml_request in
  (∃ data, parse zero = Ok data ∧ options_quota data = Some 0)
  ∧ (∃ data, parse empty = Ok data ∧ options_quota data = None)
  ∧ (∀ root data,
       parse root = Ok data → options_quota data = Some 20 →
       ∃ node s, find "optionsQuota" [] root = Some node
         ∧ text node = Some s ∧ Py.int s = Ok 20).
Proof.
  cbv zeta.
  split; [eexists; split; [vm_compute; reflexivity|reflexivity]|].
  split; [eexists; split; [vm_compute; reflexivity|reflexivity]|].
  intros root data H H20.
  apply parse_Ok in H
    as (lc & pw & us & ci & st & ds & sd & ed & q & cu & na & rooms & H).
  destruct H as (_ & _ & _ & _ & Hq & _ & _ & _ & ->). simpl in H20.
  subst q. apply extract_options_quota_value in Hq as (node & Hn & Hq).
  exists node. destruct (text node) as [[|c s]|]; try discriminate.
  exists (String c s). destruct Hq as [Hq _]. auto.
Qed.

(** ** The room loop *)

Lemma guests_nonneg (rooms : list Element) : 0 <= guests rooms.
Proof.
  induction rooms as [|room rest IH]; [reflexivity|].
  change (guests (room :: rest)) with (occupants room + guests rest).
  pose proof (len_nonneg (findall "Pax" [] room)). unfold occupants. lia.
Qed.

Lemma ages_are_integersb_true (rooms : list Element) :
  ages_are_integersb rooms = true → ages_are_integers rooms.
Proof.
  unfold ages_are_integersb, ages_are_integers.
  rewrite forallb_forall, Forall_forall. intros H room Hin.
  apply list_elem_of_In, H in Hin.
  rewrite forallb_forall in Hin. apply Forall_forall. intros pax Hpax.
  apply list_elem_of_In, Hin in Hpax.
  destruct (pax_age pax); [exact I|discriminate].
Qed.

(** With integer ages the inner loop appends one entry per occupant. *)
Lemma pax_loop_grows (paxs : list Element) :
  Forall (fun pax => is_ok (pax_age pax)) paxs →
  ∀ pax_data, ∃ out,
    pax_loop paxs pax_data = Ok out ∧ len out = len pax_data + len paxs.
Proof.
  induction 1 as [|pax rest Hpax _ IH]; intros pax_data; simpl.
  - exists pax_data. split; [reflexivity|]. unfold len. simpl. lia.
  - apply is_ok_Ok in Hpax as [a ->]. simpl.
    destruct (IH (pax_data ++ [mk_pax a
                (if a <=? self.max_child_age then "Child" else "Adult")])%list)
      as (out & -> & Hlen).
    exists out. split; [reflexivity|].
    rewrite Hlen, len_app, len_cons. unfold len. simpl. lia.
Qed.

(** The room loop compares the length of the shared [pax_data] with the
    limit after each room, so with integer ages it completes exactly when
    there is no room or the occupants of all rooms together, added to the
    entries already present, number at most 5. *)
Lemma paxes_loop_ok_iff (rooms : list Element) :
  ages_are_integers rooms →
  ∀ pax_data,
    is_ok (paxes_loop rooms pax_data)
    ↔ rooms = [] ∨ len pax_data + guests rooms <= 5.
Proof.
  induction 1 as [|room rest Hroom _ IH]; intros pax_data.
  - simpl. tauto.
  - simpl paxes_loop.
    destruct (pax_loop_grows _ Hroom pax_data) as (out & -> & Hlen).
    simpl Py.bind. fold (occupants room) in Hlen.
    pose proof (guests_nonneg rest) as Hg.
    assert (Hgs : guests (room :: rest) = occupants room + guests rest)
      by reflexivity.
    rewrite Hgs. unfold self.allowed_room_guest_count.
    destruct (Z.gtb_spec (len out) 5) as [Hgt|Hle].
    + simpl. split; [tauto|]. intros [?|?]; [discriminate|lia].
    + rewrite IH. split.
      * intros [->|?]; right; [|lia]. change (guests []) with 0. lia.
      * intros [?|?]; [discriminate|]. right. lia.
Qed.

Lemma extract_rooms_ok_iff (root : Element) :
  ages_are_integers (findall "Paxes" [] root) →
  is_ok (extract_rooms root)
  ↔ len (findall "Paxes" [] root) <= 5
    ∧ (findall "Paxes" [] root = []
       ∨ guests (findall "Paxes" [] root) <= 5).
Proof.
  intros Hages. unfold extract_rooms, validate_room_count.
  unfold self.allowed_room_count.
  pose proof (paxes_loop_ok_iff _ Hages []) as Hloop.
  change (len (@nil pax_dict)) with 0 in Hloop. rewrite Z.add_0_l in Hloop.
  destruct (Z.gtb_spec (len (findall "Paxes" [] root)) 5) as [Hgt|Hle].
  - simpl. split; [tauto|]. intros [? _]. lia.
  - simpl. rewrite <- Hloop.
    destruct (paxes_loop (findall "Paxes" [] root) []); simpl; tauto.
Qed.

(** C10: when the blocks that precede the rooms pass and every age is an
    integer, [parse] accepts the request exactly when the number of rooms
    and the number of occupants allow it; the numbers of children and of
    adults, which the loop computes for each room, play no part, so a room
    of children alone is accepted like any other. *)
Theorem child_rule_not_enforced (root : Element) :
  passes_field_rules root →
  ages_are_integers (findall "Paxes" [] root) →
  is_ok (parse root)
  ↔ len (findall "Paxes" [] root) <= 5
    ∧ (findall "Paxes" [] root = []
       ∨ guests (findall "Paxes" [] root) <= 5).
Proof.
  intros Hfields Hages. rewrite <- (extract_rooms_ok_iff root Hages).
  unfold passes_field_rules in Hfields. ok_hyps.
  repeat match goal with x : (_ * _)%type |- _ => destruct x end.
  rewrite !is_ok_Ok. split.
  - intros [data Hp]. apply parse_Ok in Hp
      as (lc & pw & us & ci & st & ds & sd & ed & q & cu & na & rooms & Hp).
    exists rooms. tauto.
  - intros [rooms Hr]. eexists. apply parse_Ok.
    repeat eexists; eassumption.
Qed.

(** C10 on a request whose only room holds two children and no adult. *)
Lemma child_rule_not_enforced_sample :
  let doc := add [Paxes [Pax "3"; Pax "4"]] (omit "Paxes" xml_request) in
  (∃ pax_data, paxes_loop (findall "Paxes" [] doc) [] = Ok pax_data
     ∧ count_type "Child" pax_data = 2 ∧ count_type "Adult" pax_data = 0)
  ∧ is_ok (parse doc).
Proof.
  cbv zeta. split.
  - eexists. split; [vm_compute; reflexivity|]. split; reflexivity.
  - apply (child_rule_not_enforced
             (add [Paxes [Pax "3"; Pax "4"]] (omit "Paxes" xml_request))).
    + vm_compute. tauto.
    + apply ages_are_integersb_true. vm_compute. reflexivity.
    + vm_compute. split; [discriminate|]. right. discriminate.
Defined.

(** C6: two rooms of three adults each, neither above the limit of 5, are
    rejected with the message of the room limit, because the second test
    counts the six occupants of both rooms. *)
Theorem room_limit_counts_all_rooms :
  let rooms := [ Paxes [Pax "30"; Pax "31"; Pax "32"];
                 Paxes [Pax "40"; Pax "41"; Pax "42"] ] in
  let doc := add rooms (omit "Paxes" xml_request) in
  findall "Paxes" [] doc = rooms
  ∧ Forall (fun room => occupants room = 3) rooms
  ∧ passes_field_rules doc
  ∧ main doc
    = Ok (JsonError "Number of passengers in a room cannot exceed 5.").
Proof.
  cbv zeta. split; [vm_compute; reflexivity|].
  split; [repeat constructor|].
  split; [vm_compute; tauto|].
  vm_compute. reflexivity.
Qed.

(** ** Nodes read without a test for [None] *)

(** C8, as amended: when one of the nodes SearchType, StartDate, EndDate,
    optionsQuota, Currency, Nationality or the credentials Parameter is
    missing and every statement of [parse] before the access to it
    completes, [parse] raises [AttributeError], and [main], which catches
    [ValueError] only, lets it through. *)
Theorem missing_node_raises_AttributeError
    (n : required_node) (root : Element) :
  reaches n root →
  lookup_node n root = None →
  parse root = Raise (AttributeError (attribute_read n))
  ∧ main root = Raise (AttributeError (attribute_read n)).
Proof.
  intros Hreach Hmiss.
  assert (Hp : parse root = Raise (AttributeError (attribute_read n))).
  { unfold parse.
    destruct n; simpl in Hreach, Hmiss; ok_hyps;
      repeat match goal with x : (_ * _)%type |- _ => destruct x end;
      repeat match goal with H : _ = Ok _ |- _ => rewrite H; clear H end;
      simpl.
    - unfold extract_parameters. rewrite Hmiss. reflexivity.
    - unfold extract_destinations. rewrite Hmiss. reflexivity.
    - unfold extract_dates. rewrite Hmiss. reflexivity.
    - unfold extract_dates. rewrite Hmiss.
      match goal with H : find "StartDate" [] root = Some _ |- _ =>
        rewrite H end.
      reflexivity.
    - unfold extract_options_quota. rewrite Hmiss. reflexivity.
    - unfold extract_currency. rewrite Hmiss. reflexivity.
    - unfold extract_nationality. rewrite Hmiss. reflexivity. }
  split; [assumption|]. unfold main. rewrite Hp. reflexivity.
Qed.

(** C8 on [xml_request] with its Currency node removed. *)
Lemma missing_node_raises_AttributeError_sample :
  main (omit "Currency" xml_request) = Raise (AttributeError "text").
Proof.
  apply (missing_node_raises_AttributeError NCurrency
           (omit "Currency" xml_request)).
  - vm_compute. tauto.
  - vm_compute. reflexivity.
Defined.

(** C8 as stated fails: a request without a Currency node whose language
    code is invalid is answered with the error object of the language
    check; no [AttributeError] is raised. *)
Lemma missing_node_after_invalid_language :
  let doc := put (source "xx") (omit "Currency" xml_request) in
  lookup_node NCurrency doc = None
  ∧ parse doc = Raise (ValueError "Invalid language code: xx")
  ∧ main doc = Ok (JsonError "Invalid language code: xx").
Proof. cbv zeta. repeat split; vm_compute; reflexivity. Qed.

(** ** The language code *)

(** X2: a language code that is present and outside the allowed set is
    rejected with a [ValueError], whatever the rest of the document. *)
Lemma invalid_language_code_rejected (root node : Element) :
  find "source" ["languageCode"] root = Some node →
  in_set (text node) self.var_filters_cg = false →
  main root
  = Ok (JsonError ("Invalid language code: " ++ fmt (text node))).
Proof.
  intros Hfind Hin. apply main_ValueError.
  unfold parse, extract_language, validate_language_code.
  rewrite Hfind. simpl. rewrite Hin. reflexivity.
Qed.

(** C5: a document without a languageCode node is not given the default
    "en": the fallback reads the unbound global [DEFAULT_LANGUAGE], so
    [parse] raises [NameError] and [main] lets it through. *)
Theorem absent_language_code_raises_NameError (root : Element) :
  find "source" ["languageCode"] root = None →
  parse root = Raise (NameError "DEFAULT_LANGUAGE")
  ∧ main root = Raise (NameError "DEFAULT_LANGUAGE").
Proof.
  intros Hfind.
  assert (Hp : parse root = Raise (NameError "DEFAULT_LANGUAGE")).
  { unfold parse, extract_language. rewrite Hfind. reflexivity. }
  split; [assumption|]. unfold main. rewrite Hp. reflexivity.
Qed.

(** C5 on [xml_request] with its source block removed. *)
Lemma absent_language_code_sample :
  main (omit "source" xml_request) = Raise (NameError "DEFAULT_LANGUAGE").
Proof.
  apply (absent_language_code_raises_NameError (omit "source" xml_request)).
  vm_compute. reflexivity.
Defined.

(** ** The destination count *)

Lemma validate_destination_Single (dests : list Element) :
  validate_destination (Some "Single") dests
  = if len dests =? 1 then Ok tt
    else Raise (ValueError
      "If SearchType is 'Single', there must be exactly one destination.").
Proof.
  unfold validate_destination.
  rewrite bool_decide_eq_true_2 by reflexivity.
  destruct (len dests =? 1); reflexivity.
Qed.

Lemma validate_destination_Multiple (dests : list Element) :
  validate_destination (Some "Multiple") dests
  = if len dests >? 10 then Raise (NameError "ALLOWED_HOTEL_COUNT")
    else Ok tt.
Proof.
  unfold validate_destination.
  rewrite bool_decide_eq_false_2 by discriminate.
  rewrite bool_decide_eq_true_2 by reflexivity.
  reflexivity.
Qed.

(** Ten destinations pass a Multiple search. *)
Lemma ten_destinations_accepted :
  ∃ items, main (add (destinations 7) xml_request) = Ok (JsonResponse items)
    ∧ length items = 10%nat.
Proof. eexists. split; vm_compute; reflexivity. Qed.

(** C2: a Multiple search with more than ten destinations does not end in
    a validation error: building the message reads the unbound global
    [ALLOWED_HOTEL_COUNT], so [parse] raises [NameError] and [main], which
    catches [ValueError] only, lets it through. *)
Theorem too_many_destinations_raises_NameError (root : Element) :
  is_ok (extract_language root) →
  is_ok (extract_parameters root) →
  text_of (find "SearchType" [] root) = Ok (Some "Multiple") →
  10 < len (findall "AvailDestinations" [] root) →
  parse root = Raise (NameError "ALLOWED_HOTEL_COUNT")
  ∧ main root = Raise (NameError "ALLOWED_HOTEL_COUNT").
Proof.
  intros Hl Hp Hst Hn. ok_hyps.
  repeat match goal with x : (_ * _)%type |- _ => destruct x end.
  assert (Hparse : parse root = Raise (NameError "ALLOWED_HOTEL_COUNT")).
  { unfold parse. rewrite Hl, Hp. simpl.
    unfold extract_destinations. rewrite Hst. simpl.
    rewrite validate_destination_Multiple.
    destruct (Z.gtb_spec (len (findall "AvailDestinations" [] root)) 10);
      [reflexivity|lia]. }
  split; [assumption|]. unfold main. rewrite Hparse. reflexivity.
Qed.

(** C2 on [xml_request] with eight more destinations, eleven in all. *)
Lemma eleven_destinations_sample :
  len (findall "AvailDestinations" [] (add (destinations 8) xml_request)) = 11
  ∧ main (add (destinations 8) xml_request)
    = Raise (NameError "ALLOWED_HOTEL_COUNT").
Proof.
  split; [vm_compute; reflexivity|].
  apply (too_many_destinations_raises_NameError
           (add (destinations 8) xml_request)).
  - vm_compute. tauto.
  - vm_compute. tauto.
  - vm_compute. reflexivity.
  - vm_compute. reflexivity.
Defined.

(** ** Currency, nationality and market *)

Lemma extract_currency_Ok (root : Element) (cu : string) :
  extract_currency root = Ok cu →
  ∃ node, find "Currency" [] root = Some node
    ∧ cu ∈ self.allowed_currencies
    ∧ (in_set (text node) self.allowed_currencies = true → text node = Some cu)
    ∧ (in_set (text node) self.allowed_currencies = false → cu = "EUR").
Proof.
  unfold extract_currency. intros H.
  destruct (find "Currency" [] root) as [node|]; [|discriminate].
  exists node. split; [reflexivity|]. simpl in H. injection H as <-.
  destruct (text node) as [c|]; simpl.
  - case_bool_decide; repeat split; try discriminate; try assumption;
      try reflexivity; set_solver.
  - repeat split; try discriminate; set_solver.
Qed.

Lemma extract_nationality_Ok (root : Element) (na : string) :
  extract_nationality root = Ok na →
  ∃ node, find "Nationality" [] root = Some node
    ∧ na ∈ self.allowed_nationalities
    ∧ (in_set (text node) self.allowed_nationalities = true →
       text node = Some na)
    ∧ (in_set (text node) self.allowed_nationalities = false → na = "US").
Proof.
  unfold extract_nationality. intros H.
  destruct (find "Nationality" [] root) as [node|]; [|discriminate].
  exists node. split; [reflexivity|]. simpl in H. injection H as <-.
  destruct (text node) as [c|]; simpl.
  - case_bool_decide; repeat split; try discriminate; try assumption;
      try reflexivity; set_solver.
  - repeat split; try discriminate; set_solver.
Qed.

(** The currency and the nationality of a returned dictionary are in their
    allow-lists; the market is the default for a document without a Market
    node and the text of the node otherwise. *)
Lemma resolved_codes (root : Element) (data : AvailData) :
  parse root = Ok data →
  currency data ∈ self.allowed_currencies
  ∧ nationality data ∈ self.allowed_nationalities
  ∧ market data = match find "Market" [] root with
                  | Some node => text node
                  | None => Some "ES"
                  end.
Proof.
  intros H. apply parse_Ok in H
    as (lc & pw & us & ci & st & ds & sd & ed & q & cu & na & rooms & H).
  destruct H as (_ & _ & _ & _ & _ & Hcu & Hna & _ & ->). simpl.
  apply extract_currency_Ok in Hcu as (? & _ & Hcu & _).
  apply extract_nationality_Ok in Hna as (? & _ & Hna & _).
  repeat split; assumption.
Qed.

(** C3: a Market node whose text is outside the allow-list is not replaced
    by the default: the request is accepted and every offer carries the
    supplied market. *)
Theorem market_not_resolved :
  let doc := add [leaf "Market" (Some "FR")] xml_request in
  ("FR" ∉ self.allowed_market)
  ∧ (∃ data, parse doc = Ok data ∧ market data = Some "FR")
  ∧ (∃ items, main doc = Ok (JsonResponse items)
       ∧ (Response.market <$> items) = [Some "FR"; Some "FR"; Some "FR"]).
Proof.
  cbv zeta. split.
  { apply (bool_decide_eq_false_1 ("FR" ∈ self.allowed_market)).
    vm_compute. reflexivity. }
  split; eexists; (split; [vm_compute; reflexivity|reflexivity]).
Qed.

(** ** The dates *)

(** Whatever two dates the document holds, [parse] keeps them as they are
    converted: no rule relates them to each other or to the current date. *)
Lemma any_dates_accepted (s e : string) (ds de : datetime) :
  strptime (Some s) = Ok ds →
  strptime (Some e) = Ok de →
  let doc := put (leaf "EndDate" (Some e))
                 (put (leaf "StartDate" (Some s)) xml_request) in
  ∃ data, parse doc = Ok data
    ∧ start_date data = ds ∧ end_date data = de
    ∧ length (generate_response data) = 3%nat.
Proof.
  intros Hs He doc.
  assert (Hd : extract_dates doc = Ok (ds, de)).
  { unfold extract_dates.
    replace (find "StartDate" [] doc) with (Some (leaf "StartDate" (Some s)))
      by (vm_compute; reflexivity).
    replace (find "EndDate" [] doc) with (Some (leaf "EndDate" (Some e)))
      by (vm_compute; reflexivity).
    cbv beta iota delta [text_of ET.text leaf Py.bind].
    rewrite Hs, He. reflexivity. }
  destruct (extract_language doc) as [lc|] eqn:Hl;
    [|vm_compute in Hl; discriminate].
  destruct (extract_parameters doc) as [[[pw us] ci]|] eqn:Hp;
    [|vm_compute in Hp; discriminate].
  destruct (extract_destinations doc) as [[st dsts]|] eqn:Hdst;
    [|vm_compute in Hdst; discriminate].
  destruct (extract_options_quota doc) as [q|] eqn:Hq;
    [|vm_compute in Hq; discriminate].
  destruct (extract_currency doc) as [cu|] eqn:Hcu;
    [|vm_compute in Hcu; discriminate].
  destruct (extract_nationality doc) as [na|] eqn:Hna;
    [|vm_compute in Hna; discriminate].
  destruct (extract_rooms doc) as [rooms|] eqn:Hr;
    [|vm_compute in Hr; discriminate].
  exists (mk_data lc q pw us ci st ds de cu na (extract_market doc) dsts rooms).
  split.
  { apply parse_Ok.
    exists lc, pw, us, ci, st, dsts, ds, de, q, cu, na, rooms.
    repeat split; assumption. }
  split; [reflexivity|]. split; [reflexivity|].
  rewrite generate_response_spec, length_fmap, length_seqZ.
  cbv beta iota delta [avail_destinations].
  vm_compute in Hdst. injection Hdst as _ <-. reflexivity.
Qed.

(** C1: [parse] never calls [validate_date].  The request of the source
    file asks for a stay of two nights from 14/10/2024: [validate_date]
    rejects these dates whatever the current date is, yet [parse] accepts
    the request and [main] answers with the three offers. *)
Theorem date_rules_not_applied :
  ∃ data, parse xml_request = Ok data
    ∧ sub_days (end_date data) (start_date data) = 2
    ∧ (∀ today, ∃ msg,
         validate_date today (start_date data) (end_date data)
         = Raise (ValueError msg))
    ∧ main xml_request = Ok (JsonResponse (generate_response data))
    ∧ length (generate_response data) = 3%nat.
Proof.
  destruct (parse xml_request) as [data|e] eqn:Hp;
    [|vm_compute in Hp; discriminate].
  exists data. split; [reflexivity|].
  assert (Hsd : start_date data = mk_datetime 739173 0)
    by (vm_compute in Hp; injection Hp as <-; reflexivity).
  assert (Hed : end_date data = mk_datetime 739175 0)
    by (vm_compute in Hp; injection Hp as <-; reflexivity).
  assert (Hn : length (avail_destinations data) = 3%nat)
    by (vm_compute in Hp; injection Hp as <-; reflexivity).
  rewrite Hsd, Hed. split; [reflexivity|]. split.
  - intros today. unfold validate_date.
    destruct (DT.leb _ _); [eexists; reflexivity|].
    eexists. reflexivity.
  - split; [apply main_Ok; assumption|].
    rewrite generate_response_spec, length_fmap, length_seqZ.
    unfold len. rewrite Hn. reflexivity.
Qed.

(** * Further properties of the validator *)

(** ** What each block of [parse] lets through *)

Lemma truthy_supplied (v : option string) : truthy v = true ↔ supplied v.
Proof.
  unfold supplied. destruct v as [[|c s]|]; simpl; split;
    try discriminate; try reflexivity.
  - intros (s & [= <-] & Hs). contradiction.
  - intros _. eexists. split; [reflexivity|discriminate].
  - intros (s & [=] & _).
Qed.

Lemma extract_language_inv (root : Element) (lc : option string) :
  extract_language root = Ok lc →
  ∃ node l, find "source" ["languageCode"] root = Some node
    ∧ text node = Some l ∧ lc = Some l ∧ l ∈ self.var_filters_cg.
Proof.
  unfold extract_language, validate_language_code. intros H.
  destruct (find "source" ["languageCode"] root) as [node|]; [|discriminate].
  simpl in H. destruct (text node) as [l|] eqn:Ht; simpl in H; [|discriminate].
  case_bool_decide; simpl in H; [|discriminate].
  injection H as <-. exists node, l.
  split; [reflexivity|]. split; [assumption|]. split; [reflexivity|].
  assumption.
Qed.

Lemma extract_parameters_inv (root : Element) (pw us ci : option string) :
  extract_parameters root = Ok (pw, us, ci) →
  ∃ node, find "Configuration" ["Parameters"; "Parameter"] root = Some node
    ∧ pw = attrib node !! "password" ∧ us = attrib node !! "username"
    ∧ ci = attrib node !! "CompanyID"
    ∧ supplied pw ∧ supplied us ∧ supplied ci.
Proof.
  unfold extract_parameters, validate_user. intros H.
  destruct (find "Configuration" ["Parameters"; "Parameter"] root)
    as [node|]; [|discriminate].
  simpl in H. exists node. split; [reflexivity|].
  destruct (truthy (attrib node !! "password")) eqn:Hpw;
    [|discriminate].
  destruct (truthy (attrib node !! "username")) eqn:Hus;
    [|discriminate].
  destruct (truthy (attrib node !! "CompanyID")) eqn:Hci;
    [|discriminate].
  simpl in H. injection H as <- <- <-.
  rewrite <- !truthy_supplied. repeat split; assumption.
Qed.

Lemma extract_destinations_inv (root : Element) (st : option string)
    (ds : list Element) :
  extract_destinations root = Ok (st, ds) →
  ∃ node, find "SearchType" [] root = Some node ∧ st = text node
    ∧ ds = findall "AvailDestinations" [] root
    ∧ (st = Some "Single" → len ds = 1)
    ∧ (st = Some "Multiple" → len ds <= 10).
Proof.
  unfold extract_destinations, validate_destination. intros H.
  destruct (find "SearchType" [] root) as [node|]; [|discriminate].
  simpl in H. exists node. split; [reflexivity|].
  unfold self.allowed_hotel_count in H.
  repeat case_bool_decide; simpl in H;
    try destruct (Z.eqb_spec (len (findall "AvailDestinations" [] root)) 1);
    try destruct (Z.gtb_spec (len (findall "AvailDestinations" [] root)) 10);
    simpl in H; try discriminate; injection H as <- <-;
    repeat split; intros; try congruence; try lia.
Qed.

Lemma extract_dates_inv (root : Element) (sd ed : datetime) :
  extract_dates root = Ok (sd, ed) →
  ∃ sn en, find "StartDate" [] root = Some sn
    ∧ find "EndDate" [] root = Some en
    ∧ strptime (text sn) = Ok sd ∧ strptime (text en) = Ok ed.
Proof.
  unfold extract_dates. intros H.
  destruct (find "StartDate" [] root) as [sn|]; [|discriminate].
  destruct (find "EndDate" [] root) as [en|]; [|discriminate].
  simpl in H.
  destruct (strptime (text sn)) as [sd'|] eqn:Hs; [|discriminate].
  destruct (strptime (text en)) as [ed'|] eqn:He; [|discriminate].
  simpl in H. injection H as <- <-. exists sn, en. auto.
Qed.

Lemma pax_loop_inv (paxs : list Element) :
  ∀ pax_data out,
    pax_loop paxs pax_data = Ok out →
    Forall (fun pax => is_ok (pax_age pax)) paxs
    ∧ len out = len pax_data + len paxs.
Proof.
  induction paxs as [|pax rest IH]; intros pax_data out H; simpl in H.
  - injection H as <-. split; [constructor|]. unfold len. simpl. lia.
  - apply bind_Ok in H as (a & Ha & H). apply IH in H as [Hall Hlen].
    split.
    + constructor; [rewrite Ha; exact I|assumption].
    + rewrite Hlen, len_app, !len_cons. unfold len. simpl. lia.
Qed.

Lemma paxes_loop_inv (rooms : list Element) :
  ∀ pax_data out,
    paxes_loop rooms pax_data = Ok out →
    ages_are_integers rooms
    ∧ len out = len pax_data + guests rooms
    ∧ (rooms ≠ [] → len out <= 5).
Proof.
  induction rooms as [|room rest IH]; intros pax_data out H.
  - simpl in H. injection H as <-.
    split; [constructor|]. split; [|congruence].
    change (guests []) with 0. lia.
  - simpl in H. apply bind_Ok in H as (pd & Hpd & H).
    apply pax_loop_inv in Hpd as [Hages Hlen].
    unfold self.allowed_room_guest_count in H.
    destruct (Z.gtb_spec (len pd) 5) as [|Hle]; [discriminate|].
    apply IH in H as (Hrest & Hout & Hcap).
    change (guests (room :: rest)) with (occupants room + guests rest).
    unfold occupants. pose proof (guests_nonneg rest).
    split; [constructor; assumption|]. split; [lia|].
    intros _. destruct rest as [|r rest'].
    + change (guests []) with 0 in Hout. lia.
    + apply Hcap. discriminate.
Qed.

Lemma extract_rooms_inv (root : Element) (rooms : list Element) :
  extract_rooms root = Ok rooms →
  rooms = findall "Paxes" [] root ∧ len rooms <= 5
  ∧ ages_are_integers rooms ∧ guests rooms <= 5.
Proof.
  unfold extract_rooms, validate_room_count, self.allowed_room_count.
  intros H.
  destruct (Z.gtb_spec (len (findall "Paxes" [] root)) 5) as [|Hle];
    [discriminate|].
  simpl in H. apply bind_Ok in H as (pd & Hpd & H). injection H as <-.
  apply paxes_loop_inv in Hpd as (Hages & Hlen & Hcap).
  change (len (@nil pax_dict)) with 0 in Hlen.
  repeat split; try assumption.
  destruct (findall "Paxes" [] root) as [|r rest] eqn:E.
  - change (guests []) with 0. lia.
  - assert (r :: rest ≠ []) as Hne by discriminate.
    apply Hcap in Hne. lia.
Qed.

(** Runs [parse] on a document given in full and hands the dictionary to
    the statement at hand. *)
Ltac parsed doc :=
  let data := fresh "data" in
  let Hp := fresh "Hp" in
  destruct (parse doc) as [data|?] eqn:Hp;
  [exists data; split; [reflexivity|]
  |vm_compute in Hp; discriminate].

(** ** What an accepted request looks like *)

(** X1: the language code of an accepted request is the text of the first
    languageCode node, and one of en, fr, de, es. *)
Theorem accepted_language_code (root : Element) (data : AvailData) :
  parse root = Ok data →
  ∃ node l, find "source" ["languageCode"] root = Some node
    ∧ text node = Some l ∧ language_code data = Some l
    ∧ l ∈ self.var_filters_cg.
Proof.
  intros H. apply parse_Ok in H
    as (lc & pw & us & ci & st & ds & sd & ed & q & cu & na & rooms & H).
  destruct H as (Hl & _ & _ & _ & _ & _ & _ & _ & ->).
  apply extract_language_inv in Hl. exact Hl.
Qed.

Lemma accepted_language_code_sample :
  ∃ data, parse (put (source "fr") xml_request) = Ok data
    ∧ ∃ node l,
        find "source" ["languageCode"] (put (source "fr") xml_request)
        = Some node
        ∧ text node = Some l ∧ language_code data = Some l
        ∧ l ∈ self.var_filters_cg.
Proof.
  parsed (put (source "fr") xml_request).
  exact (accepted_language_code _ _ Hp).
Defined.

(** X3: the credentials of an accepted request are the password, username and
    CompanyID attributes of the first Parameter node, all three present and
    not empty. *)
Theorem accepted_credentials (root : Element) (data : AvailData) :
  parse root = Ok data →
  ∃ node, find "Configuration" ["Parameters"; "Parameter"] root = Some node
    ∧ password data = attrib node !! "password"
    ∧ username data = attrib node !! "username"
    ∧ company_id data = attrib node !! "CompanyID"
    ∧ supplied (password data) ∧ supplied (username data)
    ∧ supplied (company_id data).
Proof.
  intros H. apply parse_Ok in H
    as (lc & pw & us & ci & st & ds & sd & ed & q & cu & na & rooms & H).
  destruct H as (_ & Hp & _ & _ & _ & _ & _ & _ & ->).
  apply extract_parameters_inv in Hp. exact Hp.
Qed.

Lemma accepted_credentials_sample :
  ∃ data, parse xml_request = Ok data
    ∧ ∃ node,
        find "Configuration" ["Parameters"; "Parameter"] xml_request
        = Some node
        ∧ password data = attrib node !! "password"
        ∧ username data = attrib node !! "username"
        ∧ company_id data = attrib node !! "CompanyID"
        ∧ supplied (password data) ∧ supplied (username data)
        ∧ supplied (company_id data).
Proof. parsed xml_request. exact (accepted_credentials _ _ Hp). Defined.

(** X5: an accepted request carries the text of the first SearchType node and
    every AvailDestinations node of the document, in document order: one for
    a Single search, at most ten for a Multiple search. *)
Theorem accepted_destinations (root : Element) (data : AvailData) :
  parse root = Ok data →
  ∃ node, find "SearchType" [] root = Some node
    ∧ search_type data = text node
    ∧ avail_destinations data = findall "AvailDestinations" [] root
    ∧ (search_type data = Some "Single" →
       length (avail_destinations data) = 1%nat)
    ∧ (search_type data = Some "Multiple" →
       (length (avail_destinations data) <= 10)%nat).
Proof.
  intros H. apply parse_Ok in H
    as (lc & pw & us & ci & st & ds & sd & ed & q & cu & na & rooms & H).
  destruct H as (_ & _ & Hd & _ & _ & _ & _ & _ & ->).
  apply extract_destinations_inv in Hd as (node & Hn & Hst & Hds & H1 & H10).
  exists node. simpl. unfold len in *.
  repeat split; try assumption; intros E.
  - apply H1 in E. lia.
  - apply H10 in E. lia.
Qed.

Lemma accepted_destinations_sample :
  ∃ data, parse xml_request = Ok data
    ∧ ∃ node, find "SearchType" [] xml_request = Some node
        ∧ search_type data = text node
        ∧ avail_destinations data
          = findall "AvailDestinations" [] xml_request
        ∧ (search_type data = Some "Single" →
           length (avail_destinations data) = 1%nat)
        ∧ (search_type data = Some "Multiple" →
           (length (avail_destinations data) <= 10)%nat).
Proof. parsed xml_request. exact (accepted_destinations _ _ Hp). Defined.

(** X8: the dates of an accepted request are the texts of the first StartDate
    and EndDate nodes as [strptime] converts them; nothing relates the two,
    so the end may come before the start. *)
Theorem accepted_dates (root : Element) (data : AvailData) :
  parse root = Ok data →
  ∃ sn en, find "StartDate" [] root = Some sn
    ∧ find "EndDate" [] root = Some en
    ∧ strptime (text sn) = Ok (start_date data)
    ∧ strptime (text en) = Ok (end_date data).
Proof.
  intros H. apply parse_Ok in H
    as (lc & pw & us & ci & st & ds & sd & ed & q & cu & na & rooms & H).
  destruct H as (_ & _ & _ & Hd & _ & _ & _ & _ & ->).
  apply extract_dates_inv in Hd. exact Hd.
Qed.

Lemma accepted_dates_sample :
  let doc := put (leaf "EndDate" (Some "14/10/2024"))
                 (put (leaf "StartDate" (Some "16/10/2024")) xml_request) in
  ∃ data, parse doc = Ok data
    ∧ sub_days (end_date data) (start_date data) = -2
    ∧ ∃ sn en, find "StartDate" [] doc = Some sn
        ∧ find "EndDate" [] doc = Some en
        ∧ strptime (text sn) = Ok (start_date data)
        ∧ strptime (text en) = Ok (end_date data).
Proof.
  cbv zeta.
  parsed (put (leaf "EndDate" (Some "14/10/2024"))
              (put (leaf "StartDate" (Some "16/10/2024")) xml_request)).
  split; [|exact (accepted_dates _ _ Hp)].
  vm_compute in Hp. injection Hp as <-. reflexivity.
Defined.

(** X12: the dictionary of an accepted request holds the quota as the document
    supplies it, not the resolved one: nothing for an optionsQuota node
    without text, and otherwise the integer of the text, which is at most 50
    and may be zero or negative. *)
Theorem accepted_options_quota (root : Element) (data : AvailData) :
  parse root = Ok data →
  ∃ node, find "optionsQuota" [] root = Some node
    ∧ match text node with
      | Some (String _ _ as s) =>
          ∃ n, Py.int s = Ok n ∧ options_quota data = Some n ∧ n <= 50
      | _ => options_quota data = None
      end.
Proof.
  intros H. apply parse_Ok in H
    as (lc & pw & us & ci & st & ds & sd & ed & q & cu & na & rooms & H).
  destruct H as (_ & _ & _ & _ & Hq & _ & _ & _ & ->). simpl.
  pose proof (extract_options_quota_bound _ _ Hq) as Hb.
  unfold extract_options_quota in Hq.
  destruct (find "optionsQuota" [] root) as [node|]; [|discriminate].
  exists node. split; [reflexivity|]. simpl text_of in Hq.
  apply bind_Ok in Hq as (t & [= <-] & Hq).
  apply bind_Ok in Hq as (q' & Hq' & Hq).
  apply bind_Ok in Hq as ([] & _ & [= <-]).
  destruct (text node) as [[|c s]|].
  - injection Hq' as <-. reflexivity.
  - apply bind_Ok in Hq' as (n & Hn & [= <-]).
    exists n. split; [assumption|]. split; [reflexivity|].
    unfold resolved_options_quota, self.options_quota in Hb.
    destruct (Z.eqb_spec n 0); lia.
  - injection Hq' as <-. reflexivity.
Qed.

Lemma accepted_options_quota_sample :
  let doc := put (leaf "optionsQuota" (Some "-3")) xml_request in
  ∃ data, parse doc = Ok data
    ∧ options_quota data = Some (-3)
    ∧ ∃ node, find "optionsQuota" [] doc = Some node
        ∧ match text node with
          | Some (String _ _ as s) =>
              ∃ n, Py.int s = Ok n ∧ options_quota data = Some n ∧ n <= 50
          | _ => options_quota data = None
          end.
Proof.
  cbv zeta. parsed (put (leaf "optionsQuota" (Some "-3")) xml_request).
  split; [|exact (accepted_options_quota _ _ Hp)].
  vm_compute in Hp. injection Hp as <-. reflexivity.
Defined.

(** X15: an accepted request has at most five rooms, every age in them is an
    integer, and the occupants of all its rooms together number at most
    five. *)
Theorem accepted_rooms (root : Element) (data : AvailData) :
  parse root = Ok data →
  paxes data = findall "Paxes" [] root
  ∧ (length (paxes data) <= 5)%nat
  ∧ ages_are_integers (paxes data)
  ∧ guests (paxes data) <= 5.
Proof.
  intros H. apply parse_Ok in H
    as (lc & pw & us & ci & st & ds & sd & ed & q & cu & na & rooms & H).
  destruct H as (_ & _ & _ & _ & _ & _ & _ & Hr & ->). simpl.
  apply extract_rooms_inv in Hr as (-> & Hlen & Hages & Hg).
  unfold len in Hlen. repeat split; try assumption. lia.
Qed.

Lemma accepted_rooms_sample :
  ∃ data, parse xml_request = Ok data
    ∧ guests (paxes data) = 4
    ∧ paxes data = findall "Paxes" [] xml_request
    ∧ (length (paxes data) <= 5)%nat
    ∧ ages_are_integers (paxes data)
    ∧ guests (paxes data) <= 5.
Proof.
  parsed xml_request. split; [|exact (accepted_rooms _ _ Hp)].
  vm_compute in Hp. injection Hp as <-. vm_compute. reflexivity.
Defined.

(** X14: the currency and the nationality of an accepted request are the texts
    of the first Currency and Nationality nodes when these are in the
    allow-lists, and EUR and US otherwise; either way they are in the
    allow-lists. *)
Theorem accepted_currency_nationality (root : Element) (data : AvailData) :
  parse root = Ok data →
  ∃ cn nn, find "Currency" [] root = Some cn
    ∧ find "Nationality" [] root = Some nn
    ∧ currency data
      = match text cn with
        | Some c => if bool_decide (c ∈ self.allowed_currencies) then c
                    else "EUR"
        | None => "EUR"
        end
    ∧ nationality data
      = match text nn with
        | Some n => if bool_decide (n ∈ self.allowed_nationalities) then n
                    else "US"
        | None => "US"
        end
    ∧ currency data ∈ self.allowed_currencies
    ∧ nationality data ∈ self.allowed_nationalities.
Proof.
  intros H. pose proof (resolved_codes _ _ H) as (Hcu & Hna & _).
  apply parse_Ok in H
    as (lc & pw & us & ci & st & ds & sd & ed & q & cu & na & rooms & H).
  destruct H as (_ & _ & _ & _ & _ & Ec & En & _ & ->). simpl in *.
  unfold extract_currency in Ec. unfold extract_nationality in En.
  destruct (find "Currency" [] root) as [cn|]; [|discriminate].
  destruct (find "Nationality" [] root) as [nn|]; [|discriminate].
  simpl in Ec, En. injection Ec as Ec. injection En as En.
  exists cn, nn. split; [reflexivity|]. split; [reflexivity|].
  split; [symmetry; exact Ec|]. split; [symmetry; exact En|].
  split; assumption.
Qed.

Lemma accepted_currency_nationality_sample :
  let doc := put (leaf "Nationality" (Some "FR"))
                 (put (leaf "Currency" (Some "GBP")) xml_request) in
  ∃ data, parse doc = Ok data
    ∧ (currency data = "GBP" ∧ nationality data = "US")
    ∧ ∃ cn nn, find "Currency" [] doc = Some cn
        ∧ find "Nationality" [] doc = Some nn
        ∧ currency data
          = match text cn with
            | Some c => if bool_decide (c ∈ self.allowed_currencies) then c
                        else "EUR"
            | None => "EUR"
            end
        ∧ nationality data
          = match text nn with
            | Some n =>
                if bool_decide (n ∈ self.allowed_nationalities) then n
                else "US"
            | None => "US"
            end
        ∧ currency data ∈ self.allowed_currencies
        ∧ nationality data ∈ self.allowed_nationalities.
Proof.
  cbv zeta.
  parsed (put (leaf "Nationality" (Some "FR"))
              (put (leaf "Currency" (Some "GBP")) xml_request)).
  split; [|exact (accepted_currency_nationality _ _ Hp)].
  vm_compute in Hp. injection Hp as <-. split; reflexivity.
Defined.

(** ** The offers of an accepted request *)

(** X18: every offer that [main] returns carries the market of the request (the
    text of the first Market node, ES without one), a selling currency from
    the currency allow-list, and the fixed hotel code, net price, net
    currency and markup. *)
Theorem offers_of_accepted_request (root : Element)
    (items : list Response.Item) :
  main root = Ok (JsonResponse items) →
  Forall (fun item =>
            Response.market item
            = match find "Market" [] root with
              | Some node => text node
              | None => Some "ES"
              end
            ∧ Response.selling_currency (Response.price item)
              ∈ self.allowed_currencies
            ∧ fixed_offer item) items.
Proof.
  unfold main. intros H.
  destruct (parse root) as [data|[]] eqn:Hp; try discriminate.
  injection H as <-.
  apply resolved_codes in Hp as (Hcu & _ & Hm).
  rewrite generate_response_spec. apply Forall_fmap, Forall_true.
  intros n. simpl. rewrite <- Hm.
  split; [reflexivity|]. split; [exact Hcu|].
  repeat split.
Qed.

Lemma offers_of_accepted_request_sample :
  ∃ items, main xml_request = Ok (JsonResponse items)
    ∧ length items = 3%nat
    ∧ Forall (fun item =>
                Response.market item
                = match find "Market" [] xml_request with
                  | Some node => text node
                  | None => Some "ES"
                  end
                ∧ Response.selling_currency (Response.price item)
                  ∈ self.allowed_currencies
                ∧ fixed_offer item) items.
Proof.
  destruct (main xml_request) as [[items|]|] eqn:Hm;
    try (vm_compute in Hm; discriminate).
  exists items. split; [reflexivity|].
  split; [|exact (offers_of_accepted_request _ _ Hm)].
  vm_compute in Hm. injection Hm as <-. reflexivity.
Defined.

(** Distinct integers have distinct decimal numerals. *)
Lemma str_of_int_inj (n m : Z) : str_of_int n = str_of_int m → n = m.
Proof.
  unfold str_of_int. intros H.
  assert (Hnz : ∀ z, Z.to_int z ≠ Decimal.Pos Decimal.Nil
                   ∧ Z.to_int z ≠ Decimal.Neg Decimal.Nil).
  { intros [|p|p]; simpl; split; try discriminate;
      intros [= E]; exact (DecimalPos.Unsigned.to_uint_nonnil p E). }
  apply DecimalZ.to_int_inj.
  assert (E : Some (Z.to_int n) = Some (Z.to_int m)).
  { rewrite <- (NilZero.isi (Z.to_int n)) by apply Hnz.
    rewrite <- (NilZero.isi (Z.to_int m)) by apply Hnz.
    rewrite H. reflexivity. }
  injection E as E. exact E.
Qed.

(** X19: no two offers of a response share an identifier, however many
    destinations the request has. *)
Theorem offer_ids_distinct (data : AvailData) :
  NoDup (Response.id <$> generate_response data).
Proof.
  rewrite generate_response_spec, <- list_fmap_compose.
  apply NoDup_fmap_2; [|apply NoDup_seqZ].
  intros n m H. simpl in H. injection H as H.
  apply str_of_int_inj, H.
Qed.

(** ** Rejections *)

(** [parse] stops at the first block that raises. *)
Lemma parse_stops_at_parameters (root : Element) (e : exn) :
  reaches NParameter root →
  extract_parameters root = Raise e → parse root = Raise e.
Proof.
  simpl. intros Hr He. ok_hyps. unfold parse. rewrite Hr, He. reflexivity.
Qed.

Lemma parse_stops_at_destinations (root : Element) (e : exn) :
  reaches NSearchType root →
  extract_destinations root = Raise e → parse root = Raise e.
Proof.
  simpl. intros Hr He. ok_hyps.
  repeat match goal with x : (_ * _)%type |- _ => destruct x end.
  unfold parse.
  repeat match goal with H : _ = Ok _ |- _ => rewrite H; clear H end.
  simpl. rewrite He. reflexivity.
Qed.

Lemma parse_stops_at_dates (root : Element) (e : exn) :
  reaches NStartDate root →
  extract_dates root = Raise e → parse root = Raise e.
Proof.
  simpl. intros Hr He. ok_hyps.
  repeat match goal with x : (_ * _)%type |- _ => destruct x end.
  unfold parse.
  repeat match goal with H : _ = Ok _ |- _ => rewrite H; clear H end.
  simpl. rewrite He. reflexivity.
Qed.

Lemma parse_stops_at_options_quota (root : Element) (e : exn) :
  reaches NOptionsQuota root →
  extract_options_quota root = Raise e → parse root = Raise e.
Proof.
  simpl. intros Hr He. ok_hyps.
  repeat match goal with x : (_ * _)%type |- _ => destruct x end.
  unfold parse.
  repeat match goal with H : _ = Ok _ |- _ => rewrite H; clear H end.
  simpl. rewrite He. reflexivity.
Qed.

Lemma parse_stops_at_rooms (root : Element) (e : exn) :
  passes_field_rules root →
  extract_rooms root = Raise e → parse root = Raise e.
Proof.
  unfold passes_field_rules. intros Hr He. ok_hyps.
  repeat match goal with x : (_ * _)%type |- _ => destruct x end.
  unfold parse.
  repeat match goal with H : _ = Ok _ |- _ => rewrite H; clear H end.
  simpl. rewrite He. reflexivity.
Qed.

Lemma invalid_language_code_rejected_sample :
  main (put (source "it") xml_request)
  = Ok (JsonError "Invalid language code: it").
Proof.
  apply (invalid_language_code_rejected (put (source "it") xml_request)
           (leaf "languageCode" (Some "it"))).
  - vm_compute. reflexivity.
  - vm_compute. reflexivity.
Defined.

(** X4: when the language code is accepted and the first Parameter node lacks
    the password, the username or the CompanyID, or holds an empty one,
    [main] answers with the error object of the credentials. *)
Theorem missing_credential_rejected (root node : Element) :
  is_ok (extract_language root) →
  find "Configuration" ["Parameters"; "Parameter"] root = Some node →
  ¬ (supplied (attrib node !! "password")
     ∧ supplied (attrib node !! "username")
     ∧ supplied (attrib node !! "CompanyID")) →
  main root
  = Ok (JsonError
          "Missing required parameters: password, username, or CompanyID.").
Proof.
  intros Hl Hn Hmiss. apply main_ValueError.
  apply parse_stops_at_parameters; [exact Hl|].
  unfold extract_parameters, validate_user. rewrite Hn. simpl.
  rewrite <- !truthy_supplied in Hmiss.
  destruct (truthy (attrib node !! "password")),
           (truthy (attrib node !! "username")),
           (truthy (attrib node !! "CompanyID")); simpl;
    try reflexivity.
  exfalso. apply Hmiss. auto.
Qed.

Lemma missing_credential_rejected_sample :
  main (put (Elem "Configuration" ∅ None
               [Elem "Parameters" ∅ None
                  [Elem "Parameter"
                     {[ "password" := "secret"; "username" := "";
                        "CompanyID" := "123456" ]} None []]])
            xml_request)
  = Ok (JsonError
          "Missing required parameters: password, username, or CompanyID.").
Proof.
  apply (missing_credential_rejected _
           (Elem "Parameter"
              {[ "password" := "secret"; "username" := "";
                 "CompanyID" := "123456" ]} None [])).
  - vm_compute. exact I.
  - vm_compute. reflexivity.
  - intros (_ & (s & Hs & Hne) & _). vm_compute in Hs.
    injection Hs as <-. apply Hne. reflexivity.
Defined.

(** X6: when language and credentials are accepted, a Single search with no
    destination or with more than one is answered with the error object of
    the destination count. *)
Theorem single_search_count_rejected (root : Element) :
  reaches NSearchType root →
  text_of (find "SearchType" [] root) = Ok (Some "Single") →
  length (findall "AvailDestinations" [] root) ≠ 1%nat →
  main root
  = Ok (JsonError
          "If SearchType is 'Single', there must be exactly one destination.").
Proof.
  intros Hr Hst Hn. apply main_ValueError.
  apply parse_stops_at_destinations; [exact Hr|].
  unfold extract_destinations. rewrite Hst. simpl.
  rewrite validate_destination_Single.
  destruct (Z.eqb_spec (len (findall "AvailDestinations" [] root)) 1)
    as [E|]; [|reflexivity].
  unfold len in E. lia.
Qed.

Lemma single_search_count_rejected_sample :
  main (put (leaf "SearchType" (Some "Single")) xml_request)
  = Ok (JsonError
          "If SearchType is 'Single', there must be exactly one destination.").
Proof.
  apply (single_search_count_rejected
           (put (leaf "SearchType" (Some "Single")) xml_request)).
  - vm_compute. tauto.
  - vm_compute. reflexivity.
  - vm_compute. discriminate.
Defined.

(** X7: a search type other than Single and Multiple puts no bound on the
    destinations: when the other blocks pass, every destination of the
    document gets its offer. *)
Theorem other_search_types_unbounded (root node : Element) :
  reaches NSearchType root →
  find "SearchType" [] root = Some node →
  text node ≠ Some "Single" → text node ≠ Some "Multiple" →
  is_ok (extract_dates root) → is_ok (extract_options_quota root) →
  is_ok (extract_currency root) → is_ok (extract_nationality root) →
  is_ok (extract_rooms root) →
  ∃ items, main root = Ok (JsonResponse items)
    ∧ length items = length (findall "AvailDestinations" [] root).
Proof.
  simpl. intros Hr Hn H1 H2 Hd Hq Hc Hna Hro. ok_hyps.
  repeat match goal with x : (_ * _)%type |- _ => destruct x end.
  assert (Hds : extract_destinations root
                = Ok (text node, findall "AvailDestinations" [] root)).
  { unfold extract_destinations, validate_destination. rewrite Hn. simpl.
    rewrite !bool_decide_eq_false_2 by assumption. reflexivity. }
  eexists. split.
  - apply main_Ok. apply parse_Ok. repeat eexists; eassumption.
  - rewrite generate_response_spec, length_fmap, length_seqZ.
    unfold len. simpl. lia.
Qed.

Lemma other_search_types_unbounded_sample :
  let doc := add (destinations 9)
                 (put (leaf "SearchType" (Some "Any")) xml_request) in
  ∃ items, main doc = Ok (JsonResponse items)
    ∧ length items = length (findall "AvailDestinations" [] doc)
    ∧ length items = 12%nat.
Proof.
  cbv zeta.
  destruct (other_search_types_unbounded
              (add (destinations 9)
                   (put (leaf "SearchType" (Some "Any")) xml_request))
              (leaf "SearchType" (Some "Any")))
    as (items & Hm & Hlen);
    try (vm_compute; (tauto || reflexivity || discriminate)).
  exists items. split; [exact Hm|]. split; [exact Hlen|].
  rewrite Hlen. vm_compute. reflexivity.
Defined.

(** [int()] and [strptime] on a [str] raise nothing but [ValueError]. *)
Lemma int_answers (s : string) : answers (Py.int s).
Proof.
  unfold Py.int.
  repeat match goal with
         | |- answers (match ?x with _ => _ end) => destruct x
         | |- answers (let '(_, _) := ?x in _) => destruct x
         | |- answers (if ?x then _ else _) => destruct x
         end; exact I.
Qed.

(** A well-formed numeral of more than 4300 digits is refused, so a request
    with such an age is answered with an error object. *)
Lemma int_refuses_long_numerals :
  let nines := string_of_list_ascii (repeat "9"%char 4301) in
  (∃ msg, Py.int nines = Raise (ValueError msg))
  ∧ (∃ msg, main (put (Paxes [Pax nines]) xml_request)
            = Ok (JsonError msg))
  ∧ ages_are_integersb [Paxes [Pax nines]] = false.
Proof.
  cbv zeta. split; [eexists; vm_compute; reflexivity|].
  split; [eexists; vm_compute; reflexivity|].
  vm_compute. reflexivity.
Qed.

Lemma strptime_answers (s : string) : answers (strptime (Some s)).
Proof.
  unfold strptime.
  destruct (match_dmY s) as [[[[d m] y] [|c r]]|]; try exact I.
  unfold make.
  repeat match goal with
         | |- answers (if ?b then _ else _) => destruct b
         end; exact I.
Qed.

Lemma strptime_midnight (s : option string) (d : datetime) :
  strptime s = Ok d → usec d = 0.
Proof.
  unfold strptime.
  destruct s as [s|]; [|discriminate].
  destruct (match_dmY s) as [[[[dd m] y] [|c r]]|]; try discriminate.
  unfold make.
  repeat match goal with
         | |- (if ?b then _ else _) = _ → _ => destruct b
         end; try discriminate.
  intros [= <-]. reflexivity.
Qed.

(** X9: an element StartDate or EndDate without text makes [strptime] raise a
    [TypeError], which [main] lets through: when the blocks before the
    dates pass and both nodes are there, an empty StartDate, or an empty
    EndDate after a StartDate that converts, ends [main] with that
    exception. *)
Theorem empty_date_raises_TypeError (root sn en : Element) :
  reaches NStartDate root →
  find "StartDate" [] root = Some sn →
  find "EndDate" [] root = Some en →
  text sn = None ∨ (is_ok (strptime (text sn)) ∧ text en = None) →
  main root
  = Raise (TypeError "strptime() argument 1 must be str, not None").
Proof.
  intros Hr Hs He Hnone.
  assert (Hp : parse root
               = Raise (TypeError
                          "strptime() argument 1 must be str, not None")).
  { destruct Hnone as [Hn|[Hok Hen]];
      apply parse_stops_at_dates; try exact Hr;
      unfold extract_dates; rewrite Hs, He; simpl.
    - rewrite Hn. reflexivity.
    - apply is_ok_Ok in Hok as [d ->]. rewrite Hen. reflexivity. }
  unfold main. rewrite Hp. reflexivity.
Qed.

Lemma empty_date_raises_TypeError_sample :
  main (put (leaf "EndDate" None) xml_request)
  = Raise (TypeError "strptime() argument 1 must be str, not None").
Proof.
  apply (empty_date_raises_TypeError (put (leaf "EndDate" None) xml_request)
           (leaf "StartDate" (Some "14/10/2024")) (leaf "EndDate" None)).
  - vm_compute. tauto.
  - vm_compute. reflexivity.
  - vm_compute. reflexivity.
  - right. split; [vm_compute; exact I|reflexivity].
Defined.

(** X10: when the blocks before the dates pass and both date nodes hold
    ASCII text, a text that [strptime] does not convert is answered with an
    error object: nothing escapes [main]. *)
Theorem malformed_date_rejected (root sn en : Element) (s e : string) :
  reaches NStartDate root →
  find "StartDate" [] root = Some sn → text sn = Some s →
  find "EndDate" [] root = Some en → text en = Some e →
  ascii_text s = true → ascii_text e = true →
  ¬ (is_ok (strptime (Some s)) ∧ is_ok (strptime (Some e))) →
  ∃ msg, parse root = Raise (ValueError msg)
    ∧ main root = Ok (JsonError msg).
Proof.
  intros Hr Hs Hts He Hte _ _ Hbad.
  assert (Hd : ∃ msg, extract_dates root = Raise (ValueError msg)).
  { unfold extract_dates. rewrite Hs, He.
    cbv beta iota delta [text_of Py.bind]. rewrite Hts, Hte.
    pose proof (strptime_answers s) as Ha.
    pose proof (strptime_answers e) as Hb.
    revert Ha Hb Hbad.
    destruct (strptime (Some s)) as [d|[]]; cbv beta iota delta [answers];
      intros Ha Hb Hbad; try contradiction; [|eexists; reflexivity].
    revert Hb Hbad.
    destruct (strptime (Some e)) as [d'|[]]; cbv beta iota delta [answers];
      intros Hb Hbad; try contradiction; [|eexists; reflexivity].
    exfalso. apply Hbad. split; exact I. }
  destruct Hd as [msg Hd]. exists msg.
  assert (Hp : parse root = Raise (ValueError msg))
    by (apply parse_stops_at_dates; assumption).
  split; [exact Hp|]. apply main_ValueError, Hp.
Qed.

Lemma malformed_date_rejected_sample :
  ∃ msg,
    parse (put (leaf "StartDate" (Some "31/02/2025")) xml_request)
    = Raise (ValueError msg)
    ∧ main (put (leaf "StartDate" (Some "31/02/2025")) xml_request)
      = Ok (JsonError msg).
Proof.
  apply (malformed_date_rejected
           (put (leaf "StartDate" (Some "31/02/2025")) xml_request)
           (leaf "StartDate" (Some "31/02/2025"))
           (leaf "EndDate" (Some "16/10/2024"))
           "31/02/2025" "16/10/2024").
  - vm_compute. tauto.
  - vm_compute. reflexivity.
  - reflexivity.
  - vm_compute. reflexivity.
  - reflexivity.
  - reflexivity.
  - reflexivity.
  - intros [H _]. vm_compute in H. exact H.
Defined.

(** ** The date rules of [validate_date] *)

(** X11: on two dates that [strptime] produced, and at any time of the current
    day, [validate_date] works in whole days: it rejects a start that is at
    most two days after today's date, so the earliest start it lets through
    is three days after today, and then a stay of fewer than three nights. *)
Theorem validate_date_in_days (today : datetime) (s e : option string)
    (start_date end_date : datetime) :
  0 <= usec today < us_per_day →
  strptime s = Ok start_date →
  strptime e = Ok end_date →
  validate_date today start_date end_date
  = validate_date_days (ordinal today) (ordinal start_date)
                       (ordinal end_date).
Proof.
  intros Hu Hs He.
  apply strptime_midnight in Hs, He.
  unfold validate_date, validate_date_days, DT.leb, sub_days, total_us,
    add_days. simpl. rewrite Hs, He. unfold us_per_day in *.
  replace (ordinal end_date * 86400000000 + 0
           - (ordinal start_date * 86400000000 + 0))
    with ((ordinal end_date - ordinal start_date) * 86400000000) by lia.
  rewrite Z.div_mul by lia.
  destruct (Z.leb_spec (ordinal start_date * 86400000000 + 0)
              ((ordinal today + 2) * 86400000000 + usec today));
    destruct (Z.leb_spec (ordinal start_date) (ordinal today + 2));
    try reflexivity; nia.
Qed.

Lemma validate_date_in_days_sample :
  (* today is 11/10/2024, 23:59:59; the start is 14/10 and the end 17/10 *)
  validate_date (mk_datetime 739170 86399000000)
                (mk_datetime 739173 0) (mk_datetime 739176 0)
  = Ok tt
  ∧ (* a second later today is 12/10/2024 and the same start is refused *)
  validate_date (mk_datetime 739171 0)
                (mk_datetime 739173 0) (mk_datetime 739176 0)
  = Raise (ValueError "Start date must be at least 2 days after today.").
Proof.
  split.
  - rewrite (validate_date_in_days (mk_datetime 739170 86399000000)
               (Some "14/10/2024") (Some "17/10/2024")
               (mk_datetime 739173 0) (mk_datetime 739176 0)).
    + reflexivity.
    + vm_compute. split; [discriminate|reflexivity].
    + vm_compute. reflexivity.
    + vm_compute. reflexivity.
  - rewrite (validate_date_in_days (mk_datetime 739171 0)
               (Some "14/10/2024") (Some "17/10/2024")
               (mk_datetime 739173 0) (mk_datetime 739176 0)).
    + reflexivity.
    + vm_compute. split; [discriminate|reflexivity].
    + vm_compute. reflexivity.
    + vm_compute. reflexivity.
Defined.

(** ** Quota and rooms *)

(** X13: when the blocks before the quota pass, a quota above 50 is answered
    with the error object of the quota. *)
Theorem quota_above_limit_rejected (root node : Element) (s : string)
    (n : Z) :
  reaches NOptionsQuota root →
  find "optionsQuota" [] root = Some node → text node = Some s →
  Py.int s = Ok n → 50 < n →
  main root = Ok (JsonError "OptionsQuota must be no greater than 50.").
Proof.
  intros Hr Hn Ht Hi Hgt. apply main_ValueError.
  apply parse_stops_at_options_quota; [exact Hr|].
  unfold extract_options_quota. rewrite Hn.
  cbv beta iota delta [text_of Py.bind]. rewrite Ht.
  destruct s as [|c s']; [vm_compute in Hi; discriminate|].
  rewrite Hi. unfold validate_options_quota, resolved_options_quota.
  destruct (Z.eqb_spec n 0); [lia|].
  destruct (Z.gtb_spec n 50); [reflexivity|lia].
Qed.

Lemma quota_above_limit_rejected_sample :
  main (put (leaf "optionsQuota" (Some " 1_000 ")) xml_request)
  = Ok (JsonError "OptionsQuota must be no greater than 50.").
Proof.
  apply (quota_above_limit_rejected
           (put (leaf "optionsQuota" (Some " 1_000 ")) xml_request)
           (leaf "optionsQuota" (Some " 1_000 ")) " 1_000 " 1000).
  - vm_compute. tauto.
  - vm_compute. reflexivity.
  - reflexivity.
  - vm_compute. reflexivity.
  - lia.
Defined.

(** X16: when the blocks before the rooms pass, a document with more than five
    Paxes nodes is answered with the error object of the room count, before
    any occupant is looked at. *)
Theorem too_many_rooms_rejected (root : Element) :
  passes_field_rules root →
  (5 < length (findall "Paxes" [] root))%nat →
  main root = Ok (JsonError "Number of rooms cannot exceed 5.").
Proof.
  intros Hf Hn. apply main_ValueError.
  apply parse_stops_at_rooms; [exact Hf|].
  unfold extract_rooms, validate_room_count, self.allowed_room_count.
  destruct (Z.gtb_spec (len (findall "Paxes" [] root)) 5) as [|Hle].
  - reflexivity.
  - unfold len in Hle. lia.
Qed.

Lemma too_many_rooms_rejected_sample :
  main (add (replicate 6 (Paxes [Pax "x"])) (omit "Paxes" xml_request))
  = Ok (JsonError "Number of rooms cannot exceed 5.").
Proof.
  apply (too_many_rooms_rejected
           (add (replicate 6 (Paxes [Pax "x"])) (omit "Paxes" xml_request))).
  - vm_compute. tauto.
  - vm_compute. lia.
Defined.

(** With integer ages, the room loop raises the error of the guest limit
    as soon as the rooms seen so far hold more than five occupants. *)
Lemma paxes_loop_over_limit (rooms : list Element) :
  ages_are_integers rooms →
  ∀ pax_data,
    5 < len pax_data + guests rooms → rooms ≠ [] →
    paxes_loop rooms pax_data
    = Raise (ValueError "Number of passengers in a room cannot exceed 5.").
Proof.
  induction 1 as [|room rest Hroom _ IH]; intros pax_data Hgt Hne.
  - contradiction.
  - simpl paxes_loop.
    destruct (pax_loop_grows _ Hroom pax_data) as (out & -> & Hlen).
    cbv beta iota delta [Py.bind]. fold (occupants room) in Hlen.
    change (guests (room :: rest)) with (occupants room + guests rest)
      in Hgt.
    unfold self.allowed_room_guest_count.
    destruct (Z.gtb_spec (len out) 5) as [|Hle]; [reflexivity|].
    apply IH; [lia|]. intros ->. change (guests []) with 0 in Hgt. lia.
Qed.

(** X17: when the blocks before the rooms pass, there are at most five rooms
    and every age is an integer, a request whose rooms together hold more
    than five occupants is answered with the error object of the guest
    limit, however the occupants are spread over the rooms. *)
Theorem too_many_guests_rejected (root : Element) :
  passes_field_rules root →
  (length (findall "Paxes" [] root) <= 5)%nat →
  ages_are_integers (findall "Paxes" [] root) →
  5 < guests (findall "Paxes" [] root) →
  main root
  = Ok (JsonError "Number of passengers in a room cannot exceed 5.").
Proof.
  intros Hf Hn Hages Hg. apply main_ValueError.
  apply parse_stops_at_rooms; [exact Hf|].
  unfold extract_rooms, validate_room_count, self.allowed_room_count.
  destruct (Z.gtb_spec (len (findall "Paxes" [] root)) 5) as [Hgt|_].
  { unfold len in Hgt. lia. }
  cbv beta iota delta [Py.bind].
  rewrite (paxes_loop_over_limit _ Hages []).
  - reflexivity.
  - change (len (@nil pax_dict)) with 0. lia.
  - intros E. rewrite E in Hg. change (guests []) with 0 in Hg. lia.
Qed.

Lemma too_many_guests_rejected_sample :
  main (add [Paxes [Pax "30"]; Paxes [Pax "31"]; Paxes [Pax "32"]]
            xml_request)
  = Ok (JsonError "Number of passengers in a room cannot exceed 5.").
Proof.
  apply (too_many_guests_rejected
           (add [Paxes [Pax "30"]; Paxes [Pax "31"]; Paxes [Pax "32"]]
                xml_request)).
  - vm_compute. tauto.
  - vm_compute. lia.
  - apply ages_are_integersb_true. vm_compute. reflexivity.
  - vm_compute. reflexivity.
Defined.

(** ** When [main] answers *)

Lemma answers_bind {A B} (r : result A) (k : A → result B) :
  answers r → (∀ a, answers (k a)) → answers (Py.bind r k).
Proof. destruct r as [a|[]]; simpl; auto. Qed.

Lemma pax_loop_answers (paxs : list Element) :
  ∀ pax_data, answers (pax_loop paxs pax_data).
Proof.
  induction paxs as [|pax rest IH]; intros pax_data; simpl; [exact I|].
  apply answers_bind; [|intros a; apply IH].
  unfold pax_age. destruct (attrib pax !! "age"); [apply int_answers|exact I].
Qed.

Lemma paxes_loop_answers (rooms : list Element) :
  ∀ pax_data, answers (paxes_loop rooms pax_data).
Proof.
  induction rooms as [|room rest IH]; intros pax_data; simpl; [exact I|].
  apply answers_bind; [apply pax_loop_answers|]. intros pd.
  destruct (len pd >? self.allowed_room_guest_count); [exact I|apply IH].
Qed.

(** The room block raises nothing but [ValueError]. *)
Lemma extract_rooms_answers (root : Element) : answers (extract_rooms root).
Proof.
  unfold extract_rooms. apply answers_bind.
  - unfold validate_room_count. destruct (_ >? _); exact I.
  - intros _. apply answers_bind; [apply paxes_loop_answers|].
    intros _. exact I.
Qed.

Lemma parse_answers (root : Element) :
  complete root → answers (parse root).
Proof.
  intros ([ln Hl] & Hnodes & [s Hs] & [e He] & Hmul).
  pose proof (Hnodes NParameter) as [pn Hpn].
  pose proof (Hnodes NSearchType) as [stn Hstn].
  pose proof (Hnodes NOptionsQuota) as [qn Hqn].
  pose proof (Hnodes NCurrency) as [cn Hcn].
  pose proof (Hnodes NNationality) as [nn Hnn].
  simpl in Hpn, Hstn, Hqn, Hcn, Hnn.
  unfold parse.
  apply answers_bind.
  { unfold extract_language, validate_language_code. rewrite Hl.
    cbv beta iota delta [Py.bind]. destruct (negb _); exact I. }
  intros lc. apply answers_bind.
  { unfold extract_parameters, validate_user. rewrite Hpn.
    cbv beta iota delta [ET.get Py.bind]. destruct (negb _); exact I. }
  intros [[pw us] ci]. apply answers_bind.
  { unfold extract_destinations. rewrite Hstn in *.
    cbv beta iota delta [text_of Py.bind] in *.
    unfold validate_destination.
    destruct (bool_decide (text stn = Some "Single")
              && negb (len (findall "AvailDestinations" [] root) =? 1));
      [exact I|].
    case_bool_decide as Hm; simpl; [|exact I].
    unfold self.allowed_hotel_count.
    destruct (Z.gtb_spec (len (findall "AvailDestinations" [] root)) 10)
      as [Hgt|]; [|exact I].
    rewrite Hm in Hmul. specialize (Hmul eq_refl). lia. }
  intros [st ds]. apply answers_bind.
  { unfold extract_dates. rewrite Hs, He.
    cbv beta iota delta [Py.bind].
    apply answers_bind; [apply strptime_answers|]. intros sd.
    apply answers_bind; [apply strptime_answers|]. intros ed. exact I. }
  intros [sd ed]. apply answers_bind.
  { unfold extract_options_quota. rewrite Hqn.
    cbv beta iota delta [text_of Py.bind].
    destruct (text qn) as [[|c q]|].
    - unfold validate_options_quota. destruct (_ >? _); exact I.
    - pose proof (int_answers (String c q)) as Hi.
      destruct (Py.int (String c q)) as [n|[]]; try contradiction;
        try exact I.
      cbv beta iota delta [Py.bind].
      unfold validate_options_quota. destruct (_ >? _); exact I.
    - unfold validate_options_quota. destruct (_ >? _); exact I. }
  intros q. apply answers_bind.
  { unfold extract_currency. rewrite Hcn. exact I. }
  intros cu. apply answers_bind.
  { unfold extract_nationality. rewrite Hnn. exact I. }
  intros na. apply answers_bind; [apply extract_rooms_answers|].
  intros rooms. exact I.
Qed.

(** X20: [main] answers every document that has the nodes [parse] dereferences,
    text in its two dates and at most ten destinations when the search is
    Multiple: whatever else is wrong with it, the result is the response or
    an error object, and no exception escapes. *)
Theorem main_answers_complete_documents (root : Element) :
  complete root →
  (∃ items, main root = Ok (JsonResponse items))
  ∨ (∃ msg, main root = Ok (JsonError msg)).
Proof.
  intros Hc. apply parse_answers in Hc. unfold main.
  destruct (parse root) as [data|[]]; simpl in Hc; try contradiction.
  - left. eexists. reflexivity.
  - right. eexists. reflexivity.
Qed.

Lemma main_answers_complete_documents_sample :
  let doc := put (leaf "Currency" None)
               (put (leaf "StartDate" (Some "tomorrow"))
                  (put (Elem "Paxes" ∅ None [Pax "ten"]) xml_request)) in
  (∃ items, main doc = Ok (JsonResponse items))
  ∨ (∃ msg, main doc = Ok (JsonError msg)).
Proof.
  cbv zeta. apply main_answers_complete_documents.
  split; [vm_compute; eauto|].
  split; [intros []; vm_compute; eauto|].
  split; [vm_compute; eauto|].
  split; [vm_compute; eauto|].
  intros _. vm_compute. discriminate.
Defined.
